(** * The todo service of [examples/peewee_example.py]

    A shallow embedding of the Flask + peewee + marshmallow example:
    the two peewee models and their table, the two marshmallow schemas
    with their hooks, the authentication decorator and the views,
    followed by the properties of the request pipeline.

    Conventions.
    - A Python [str] is a [string] whose characters are the code points
      below 256.
    - A view runs in the monad [M]: it reads and writes the database and
      either returns a value or raises a Python exception.  peewee runs
      in autocommit mode, so what a view wrote stays written when a later
      statement of the same view raises.
    - Time is read from the clock once per request and handed to the view
      as [now]. *)

From Stdlib Require Import ZArith List String Ascii Bool Lia DecimalString.
From Stdlib Require Import Permutation Sorted.
Import ListNotations.
Open Scope string_scope.
Open Scope Z_scope.

Set Implicit Arguments.
Set Warnings "-register-all".

(* ------------------------------------------------------------------ *)
(** ** Python strings *)

Module Str.

Definition code (c : ascii) : N := N_of_ascii c.

(** [str.isspace] on one character: the ASCII blanks, the four
    information separators, NEL and the no-break space. *)
Definition isspace (c : ascii) : bool :=
  let n := code c in
  (((9 <=? n) && (n <=? 13)) || ((28 <=? n) && (n <=? 32))
   || (n =? 133) || (n =? 160))%N.

(** [str.lower] on one character: A-Z and the Latin-1 capitals (all of
    192..222 but the multiplication sign) move up by 32. *)
Definition lower_char (c : ascii) : ascii :=
  let n := code c in
  if (((65 <=? n) && (n <=? 90))
      || ((192 <=? n) && (n <=? 222) && negb (n =? 215)))%N
  then ascii_of_N (n + 32) else c.

Fixpoint lower (s : string) : string :=
  match s with
  | EmptyString => EmptyString
  | String c s' => String (lower_char c) (lower s')
  end.

Fixpoint lstrip (s : string) : string :=
  match s with
  | EmptyString => EmptyString
  | String c s' => if isspace c then lstrip s' else s
  end.

Fixpoint rstrip (s : string) : string :=
  match s with
  | EmptyString => EmptyString
  | String c s' =>
      match rstrip s' with
      | EmptyString => if isspace c then EmptyString else String c EmptyString
      | r => String c r
      end
  end.

Definition strip (s : string) : string := rstrip (lstrip s).

Definition len (s : string) : Z := Z.of_nat (String.length s).

End Str.

(** The double quote, as a one-character string. *)
Definition dquote : string := String (ascii_of_N 34) EmptyString.

(* ------------------------------------------------------------------ *)
(** ** Python dicts and JSON values *)

(** A dict with string keys, in insertion order. *)
Definition dict (V : Type) : Type := list (string * V).

Fixpoint dict_get {V} (k : string) (d : dict V) : option V :=
  match d with
  | [] => None
  | (k', v) :: d' => if String.eqb k k' then Some v else dict_get k d'
  end.

(** [d[k] = v]: overwrite in place, or append a new key. *)
Fixpoint dict_set {V} (k : string) (v : V) (d : dict V) : dict V :=
  match d with
  | [] => [(k, v)]
  | (k', v') :: d' =>
      if String.eqb k k' then (k, v) :: d' else (k', v') :: dict_set k v d'
  end.

Definition dict_keys {V} (d : dict V) : list string := map fst d.

Definition mem (k : string) (ks : list string) : bool :=
  existsb (String.eqb k) ks.

(** What [request.get_json()] delivers and what a view hands to
    [jsonify]. *)
Inductive json : Type :=
| JNull
| JBool (b : bool)
| JInt (n : Z)
| JStr (s : string)
| JList (l : list json)
| JObj (o : list (string * json)).

(** [d[k]] on a JSON value: only an object has string keys. *)
Definition item (k : string) (j : json) : option json :=
  match j with
  | JObj o => dict_get k o
  | _ => None
  end.

(* ------------------------------------------------------------------ *)
(** ** Exceptions and results *)

(** Each model class has a [DoesNotExist] of its own. *)
Inductive model_class : Type := UserModel | TodoModel.

Inductive exn : Type :=
| DoesNotExist (model : model_class)
| IntegrityError
| KeyError (key : string)
| AttributeError (attr : string)
| TypeError
| ValidationError (messages : json).

Inductive result (A : Type) : Type :=
| Return (a : A)
| Raise (e : exn).
Arguments Return {A} a.
Arguments Raise {A} e.

Definition datetime : Type := Z.

(* ------------------------------------------------------------------ *)
(** ** Models *)

(** [class User(BaseModel)]: an instance and a row of table [user] hold
    the same four columns. *)
Module User.

Record t : Type := Build {
  id : Z;
  email : string;
  password : string;
  joined_on : datetime
}.

Definition table : Type := list t.

(** SQLite gives a new row one more than the largest rowid in use, and
    1 in an empty table.  That is so while the largest rowid is below
    2^63 - 1; at that limit SQLite tries unused rowids at random, which
    this definition does not follow. *)
Definition next_id (rows : table) : Z :=
  match rows with
  | [] => 1
  | r :: rows' => 1 + fold_right Z.max (id r) (map id rows')
  end.

(** [User.get(expr)]: the first matching row, else [User.DoesNotExist]. *)
Definition get (expr : t -> bool) (rows : table) : result t :=
  match find expr rows with
  | Some u => Return u
  | None => Raise (DoesNotExist UserModel)
  end.

(** [User.create(email=, joined_on=, password=)]: INSERT; the column
    is [unique=True]. *)
Definition create (email' : string) (joined_on' : datetime)
           (password' : string) (rows : table) : result t * table :=
  if existsb (fun r => String.eqb (email r) email') rows
  then (Raise IntegrityError, rows)
  else
    let u := Build (next_id rows) email' password' joined_on' in
    (Return u, (rows ++ [u])%list).

End User.

(** A row of table [todo]. *)
Module TodoRow.

Record t : Type := Build {
  id : Z;
  content : string;
  is_done : bool;
  user_id : Z;
  posted_on : datetime
}.

Definition table : Type := list t.

(** The rowid of a new row, as for [User.next_id], and with the same
    limit. *)
Definition next_id (rows : table) : Z :=
  match rows with
  | [] => 1
  | r :: rows' => 1 + fold_right Z.max (id r) (map id rows')
  end.

Definition set_is_done (b : bool) (r : t) : t :=
  Build (id r) (content r) b (user_id r) (posted_on r).

End TodoRow.

(** What the attribute [user] of a [Todo] instance holds: nothing yet,
    the key read from the row (the related object is fetched on first
    access), or an object that was assigned. *)
Inductive foreign_key : Type :=
| FkUnset
| FkId (pk : Z)
| FkObj (u : User.t).

(** [class Todo(BaseModel)]: an instance in memory. *)
Module Todo.

Record t : Type := Build {
  id : option Z;
  content : string;
  is_done : bool;
  user : foreign_key;
  posted_on : datetime
}.

Definition of_row (r : TodoRow.t) : t :=
  Build (Some (TodoRow.id r)) (TodoRow.content r) (TodoRow.is_done r)
        (FkId (TodoRow.user_id r)) (TodoRow.posted_on r).

(** [bool(todo)]: the model class defines neither [__bool__] nor
    [__len__]. *)
Definition truthy (todo : t) : bool := true.

(** [Todo.get(expr)]: the first matching row as a fresh instance, else
    [Todo.DoesNotExist].  A key compared in [expr] is taken to fit
    SQLite's 64-bit integers; binding a larger one raises
    [OverflowError] in the driver, which this definition does not
    follow. *)
Definition get (expr : TodoRow.t -> bool) (rows : TodoRow.table)
  : result t :=
  match find expr rows with
  | Some r => Return (of_row r)
  | None => Raise (DoesNotExist TodoModel)
  end.

(** The query object that [update] builds: the new value of [is_done]
    and the WHERE clause, which only a later [.where(...)] call would
    fill in. *)
Record ModelUpdate : Type := BuildUpdate {
  set_is_done : bool;
  where_ : option (TodoRow.t -> bool)
}.

(** [update] is a classmethod of [Model]: called through an instance,
    as in [todo.update(is_done=status)], it still receives the class
    and builds [UPDATE todo SET is_done = ?] with no WHERE clause. *)
Definition update (self : t) (is_done' : bool) : ModelUpdate :=
  BuildUpdate is_done' None.

(** [query.execute()]: every row the WHERE clause selects is rewritten,
    every row when there is none.  Instances already in memory are
    not touched. *)
Definition execute (q : ModelUpdate) (rows : TodoRow.table)
  : TodoRow.table :=
  map (fun r =>
         match where_ q with
         | Some w => if w r then TodoRow.set_is_done (set_is_done q) r else r
         | None => TodoRow.set_is_done (set_is_done q) r
         end) rows.

(** [todo.save()] on an instance.  Without an id it is an INSERT that
    stores the key of the assigned user and writes the new rowid back
    into the instance; column [user_id] is NOT NULL.  With an id it is
    an UPDATE of that row. *)
Definition save (todo : t) (rows : TodoRow.table)
  : result t * TodoRow.table :=
  let fk :=
    match user todo with
    | FkUnset => None
    | FkId pk => Some pk
    | FkObj u => Some (User.id u)
    end in
  match fk with
  | None => (Raise IntegrityError, rows)
  | Some uid =>
      match id todo with
      | None =>
          let pk := TodoRow.next_id rows in
          (Return (Build (Some pk) (content todo) (is_done todo)
                         (user todo) (posted_on todo)),
           (rows ++ [TodoRow.Build pk (content todo) (is_done todo) uid
                                   (posted_on todo)])%list)
      | Some pk =>
          (Return todo,
           map (fun r =>
                  if TodoRow.id r =? pk
                  then TodoRow.Build pk (content todo) (is_done todo) uid
                                     (posted_on todo)
                  else r) rows)
      end
  end.

End Todo.

(** The database [db]: the two tables. *)
Record DB : Type := BuildDB {
  users : User.table;
  todos : TodoRow.table
}.

(* ------------------------------------------------------------------ *)
(** ** The monad of a view *)

Definition M (A : Type) : Type := DB -> result A * DB.

Definition ret {A} (a : A) : M A := fun db => (Return a, db).

Definition raise {A} (e : exn) : M A := fun db => (Raise e, db).

Definition bind {A B} (m : M A) (f : A -> M B) : M B :=
  fun db =>
    match m db with
    | (Return a, db') => f a db'
    | (Raise e, db') => (Raise e, db')
    end.

Notation "x <- m ;; k" := (bind m (fun x => k))
  (at level 61, m at next level, right associativity).

(** The body of a [try:] block, with its outcome made a value for the
    [except] clauses to inspect. *)
Definition attempt {A} (m : M A) : M (result A) :=
  fun db => let (r, db') := m db in (Return r, db').

Definition lift {A} (r : result A) : M A := fun db => (r, db).

Definition User_get (expr : User.t -> bool) : M User.t :=
  fun db => (User.get expr (users db), db).

Definition User_create (email : string) (joined_on : datetime)
           (password : string) : M User.t :=
  fun db =>
    let (r, rows) := User.create email joined_on password (users db) in
    (r, BuildDB rows (todos db)).

Definition Todo_get (expr : TodoRow.t -> bool) : M Todo.t :=
  fun db => (Todo.get expr (todos db), db).

Definition Todo_execute (q : Todo.ModelUpdate) : M unit :=
  fun db => (Return tt, BuildDB (users db) (Todo.execute q (todos db))).

Definition Todo_save (todo : Todo.t) : M Todo.t :=
  fun db =>
    let (r, rows) := Todo.save todo (todos db) in
    (r, BuildDB (users db) rows).

(** Reading [todo.user]: an assigned object is returned as it is, a key
    is resolved by a query, and a NOT NULL key that was never set raises
    [User.DoesNotExist]. *)
Definition Todo_user (todo : Todo.t) : M User.t :=
  match Todo.user todo with
  | FkObj u => ret u
  | FkId pk => User_get (fun u => User.id u =? pk)
  | FkUnset => raise (DoesNotExist UserModel)
  end.

(* ------------------------------------------------------------------ *)
(** ** The schema layer *)

(** What a schema does with a key of the payload that none of its load
    fields declares: reject it, drop it, or pass it through. *)
Inductive unknown_policy : Type := RAISE | EXCLUDE | INCLUDE.

Inductive field_type : Type := FStr | FBoolean.

(** One field a schema loads: [fields.Str(...)] or [fields.Boolean(...)]
    with the keyword arguments of its declaration. *)
Record LoadField : Type := BuildField {
  data_key : string;
  attribute : string;
  ftype : field_type;
  required : bool;
  missing : option json;
  validate : list (json -> option string)
}.

(** Outcome of loading one field. *)
Inductive loaded : Type :=
| Absent
| Value (v : json)
| Errors (msgs : list string).

Definition messages_json (errors : dict (list string)) : json :=
  JObj (map (fun e => (fst e, JList (map JStr (snd e)))) errors).

(** [str(n)] for an integer. *)
Definition str_of_int (n : Z) : string := NilZero.string_of_int (Z.to_int n).

(** Modelled from the spec: [validate.Length(min=, max=)] of the
    library (rule table of section 4.2: length within the two bounds),
    on the number of characters.  The message is the library's. *)
Definition Length (min max : Z) (v : json) : option string :=
  match v with
  | JStr s =>
      if (min <=? Str.len s) && (Str.len s <=? max) then None
      else Some ("Length must be between " ++ str_of_int min ++ " and "
                 ++ str_of_int max ++ ".")
  | _ => None
  end.

Section Marshmallow.

(** The parts of the library that the example takes as given: the
    pattern behind [validate.Email], the truthy and falsy values of
    [fields.Boolean] and the policy in force for undeclared keys. *)
Variable email_pattern : string -> bool.
Variable boolean_value : json -> option bool.
Variable unknown : unknown_policy.

(** Modelled from the spec: [validate.Email(error=...)] of the library
    (rule table of section 4.2: must match an email address pattern),
    with the message the declaration passes. *)
Definition Email (error : string) (v : json) : option string :=
  match v with
  | JStr s => if email_pattern s then None else Some error
  | _ => None
  end.

(** Modelled from the spec: what [fields.Str] and [fields.Boolean] of
    the library make of a value that is present (section 3: [str] and
    [bool] columns).  The messages are the library's. *)
Definition deserialize_value (ty : field_type) (v : json) : string + json :=
  match ty, v with
  | FStr, JStr s => inr (JStr s)
  | FStr, _ => inl "Not a valid string."
  | FBoolean, _ =>
      match boolean_value v with
      | Some b => inr (JBool b)
      | None => inl "Not a valid boolean."
      end
  end.

(** Modelled from the spec: one field of the library's [Schema.load]
    (section 4.2, step 2 and the rule table): a missing required field
    is a violation, a missing optional one takes its default, a present
    one is typed and then checked by every validator, whose messages
    are all kept.  The messages are the library's. *)
Definition load_field (f : LoadField) (payload : dict json) : loaded :=
  match dict_get (data_key f) payload with
  | None =>
      if required f then Errors ["Missing data for required field."]
      else match missing f with
           | Some d => Value d
           | None => Absent
           end
  | Some JNull => Errors ["Field may not be null."]
  | Some v =>
      match deserialize_value (ftype f) v with
      | inl msg => Errors [msg]
      | inr v' =>
          match flat_map (fun check =>
                            match check v' with
                            | Some msg => [msg]
                            | None => []
                            end) (validate f) with
          | [] => Value v'
          | msgs => Errors msgs
          end
      end
  end.

(** Modelled from the spec: the loop of [Schema.load] over the declared
    fields (section 4.2, steps 2 and 3): valid values keyed by
    attribute, messages keyed by field. *)
Fixpoint load_fields (fs : list LoadField) (payload : dict json)
  : dict json * dict (list string) :=
  match fs with
  | [] => ([], [])
  | f :: fs' =>
      let (data, errors) := load_fields fs' payload in
      match load_field f payload with
      | Absent => (data, errors)
      | Value v => ((attribute f, v) :: data, errors)
      | Errors msgs => (data, (data_key f, msgs) :: errors)
      end
  end.

(** The keys of the payload that no load field declares.  The spec does
    not speak of them; the library rejects them, drops them or passes
    them through, as the schema's policy says. *)
Definition load_unknown (fs : list LoadField) (payload : dict json)
  : dict json * dict (list string) :=
  let extra :=
    filter (fun kv => negb (mem (fst kv) (map data_key fs))) payload in
  match unknown with
  | RAISE => ([], map (fun kv => (fst kv, ["Unknown field."])) extra)
  | EXCLUDE => ([], [])
  | INCLUDE => (extra, [])
  end.

(** Modelled from the spec: the validated data and the messages of one
    payload (section 4.2, steps 2 and 3). *)
Definition deserialize (fs : list LoadField) (payload : dict json)
  : dict json * dict (list string) :=
  let (data, errors) := load_fields fs payload in
  let (data', errors') := load_unknown fs payload in
  ((data ++ data')%list, (errors ++ errors')%list).

(** Modelled from the spec: [Schema.load] of the library with its
    hooks (section 4.2, steps 1 to 4): the [pre_load] hook runs before
    any validation, any violation fails the load with [ValidationError]
    carrying all messages, and the [post_load] hook runs on validated
    data only. *)
Definition load {A} (pre_load : dict json -> result (dict json))
           (fs : list LoadField) (post_load : dict json -> result A)
           (payload : dict json) : result A :=
  match pre_load payload with
  | Raise e => Raise e
  | Return processed =>
      match deserialize fs processed with
      | (data, []) => post_load data
      | (_, errors) => Raise (ValidationError (messages_json errors))
      end
  end.

End Marshmallow.

(* ------------------------------------------------------------------ *)
(** ** Requests and responses *)

(** What the HTTP layer hands to a view: the credentials of the
    Authorization header, if any, and the parsed body, a mapping:
    [get_json] is what [request.get_json()] returned.  A body that it
    cannot parse makes that call raise inside the view; such requests
    are not values of this type. *)
Record request : Type := BuildRequest {
  authorization : option (string * string);
  get_json : dict json
}.

(** What a view hands back: [return body, status] (status 200 when the
    view returns the body alone) or a response object with headers. *)
Record response : Type := BuildResponse {
  status_code : Z;
  headers : dict string;
  body : json
}.

Definition reply (body : json) (status : Z) : response :=
  BuildResponse status [] body.

(** [d[k] = v] on a dict held as a JSON object. *)
Definition json_setitem (k : string) (v : json) (d : json) : json :=
  match d with
  | JObj o => JObj (dict_set k v o)
  | _ => d
  end.

(** [d[k]] where the view goes on to use the value as a [str].  Every
    value of validated data is typed by its field, so the last case is
    only there to make the function total. *)
Definition getitem_str (k : string) (d : dict json) : result string :=
  match dict_get k d with
  | None => Raise (KeyError k)
  | Some (JStr s) => Return s
  | Some _ => Raise TypeError
  end.

(* ------------------------------------------------------------------ *)
(** ** Schemas, helpers and views *)

Section Application.

Variable email_pattern : string -> bool.
Variable boolean_value : json -> option bool.
Variable isoformat : datetime -> string.
Variable unknown : unknown_policy.

(** *** [class UserSchema(Schema)] *)

(** The fields the schema loads, in declaration order; [id] and
    [joined_on] are [dump_only]. *)
Definition UserSchema_load_fields : list LoadField :=
  [ BuildField "email" "email" FStr true None
      [Email email_pattern "Not a valid email address"];
    BuildField "password" "password" FStr true None [Length 6 36] ].

(** [@pre_load process_input]:
    [data["email"] = data["email"].lower().strip()]. *)
Definition process_input (data : dict json) : result (dict json) :=
  match dict_get "email" data with
  | None => Raise (KeyError "email")
  | Some (JStr s) =>
      Return (dict_set "email" (JStr (Str.strip (Str.lower s))) data)
  | Some _ => Raise (AttributeError "lower")
  end.

(** [@post_dump(pass_many=True) wrap]. *)
Definition UserSchema_wrap (data : json) (many : bool) : json :=
  let key := if many then "users" else "user" in
  JObj [(key, data)].

(** The fields the schema dumps, in declaration order, less the
    excluded ones; [password] is [load_only]. *)
Definition UserSchema_serialize (exclude : list string) (u : User.t)
  : json :=
  JObj (filter (fun kv => negb (mem (fst kv) exclude))
          [("id", JInt (User.id u));
           ("email", JStr (User.email u));
           ("joined_on", JStr (isoformat (User.joined_on u)))]).

(** Modelled from the spec: [Schema.dump] of the library for one
    object (section 4.2, dump path): serialize the dump fields, then
    run the schema's [post_dump] hook. *)
Definition UserSchema_dump (exclude : list string) (u : User.t) : json :=
  UserSchema_wrap (UserSchema_serialize exclude u) false.

(** [user_schema = UserSchema()]. *)
Definition user_schema_load (payload : dict json) : result (dict json) :=
  load boolean_value unknown process_input UserSchema_load_fields
       (fun data => Return data) payload.

Definition user_schema_dump (u : User.t) : json := UserSchema_dump [] u.

(** *** [class TodoSchema(Schema)] *)

(** [done] and [content]; [id], [user] and [posted_on] are
    [dump_only]. *)
Definition TodoSchema_load_fields : list LoadField :=
  [ BuildField "done" "is_done" FBoolean false (Some (JBool false)) [];
    BuildField "content" "content" FStr true None [] ].

(** [@post_dump(pass_many=True) wrap]. *)
Definition TodoSchema_wrap (data : json) (many : bool) : json :=
  let key := if many then "todos" else "todo" in
  JObj [(key, data)].

(** [@post_load make_object].  The constructor receives a [str] and a
    [bool] from validated data; the last case only makes the function
    total. *)
Definition make_object (now : datetime) (data : dict json)
  : result (option Todo.t) :=
  match data with
  | [] => Return None
  | _ =>
      match dict_get "content" data with
      | None => Raise (KeyError "content")
      | Some content =>
          match dict_get "is_done" data with
          | None => Raise (KeyError "is_done")
          | Some is_done =>
              match content, is_done with
              | JStr c, JBool d =>
                  Return (Some (Todo.Build None c d FkUnset now))
              | _, _ => Raise TypeError
              end
          end
      end
  end.

(** [todo_schema = TodoSchema()]. *)
Definition todo_schema_load (now : datetime) (payload : dict json)
  : result (option Todo.t) :=
  load boolean_value unknown (fun data => Return data)
       TodoSchema_load_fields (make_object now) payload.

(** Modelled from the spec: [Schema.dump] and [fields.Nested] of the
    library (section 4.2, dump path).  The fields are read off the
    instance in declaration order; the nested field dumps the related
    user through the schema instance it was declared with,
    [UserSchema(exclude=("joined_on", "password"))], hooks included. *)
Definition todo_schema_dump (todo : Todo.t) : M json :=
  user <- Todo_user todo ;;
  ret (TodoSchema_wrap
         (JObj [("id", match Todo.id todo with
                       | Some pk => JInt pk
                       | None => JNull
                       end);
                ("done", JBool (Todo.is_done todo));
                ("user", UserSchema_dump ["joined_on"; "password"] user);
                ("content", JStr (Todo.content todo));
                ("posted_on", JStr (isoformat (Todo.posted_on todo)))])
         false).

(** *** Helpers *)

Definition check_auth (email password : string) : M bool :=
  found <- attempt (User_get (fun u => String.eqb (User.email u) email)) ;;
  match found with
  | Raise (DoesNotExist UserModel) => ret false
  | Raise e => raise e
  | Return user => ret (String.eqb password (User.password user))
  end.

Definition please_authenticate : response :=
  BuildResponse 401
                [("WWW-Authenticate",
                  "Basic realm=" ++ dquote ++ "Example" ++ dquote)]
                (JObj [("message", JStr "Please authenticate.")]).

Definition requires_auth (f : User.t -> request -> M response)
           (req : request) : M response :=
  match authorization req with
  | None => ret please_authenticate
  | Some (username, password) =>
      ok <- check_auth username password ;;
      if negb ok then ret please_authenticate
      else
        user <- User_get (fun u => String.eqb (User.email u) username) ;;
        f user req
  end.

(** *** Views *)

(** [POST /register]. *)
Definition register (now : datetime) (req : request) : M response :=
  let json_input := get_json req in
  match user_schema_load json_input with
  | Raise (ValidationError messages) =>
      ret (reply (JObj [("errors", messages)]) 422)
  | Raise e => raise e
  | Return data =>
      found <- attempt
                 (email <- lift (getitem_str "email" data) ;;
                  User_get (fun u => String.eqb (User.email u) email)) ;;
      match found with
      | Raise (DoesNotExist UserModel) =>
          email <- lift (getitem_str "email" data) ;;
          password <- lift (getitem_str "password" data) ;;
          user <- User_create email now password ;;
          let message := "Successfully created user: " ++ User.email user in
          let data := user_schema_dump user in
          let data := json_setitem "message" (JStr message) data in
          ret (reply data 201)
      | Raise e => raise e
      | Return _ =>
          ret (reply
                 (JObj [("errors",
                         JStr "That email address is already in the database")])
                 400)
      end
  end.

(** [GET /todos/<int:pk>]. *)
Definition get_todo (pk : Z) : M response :=
  todo <- Todo_get (fun r => TodoRow.id r =? pk) ;;
  if negb (Todo.truthy todo)
  then ret (reply (JObj [("errors", JStr "Todo could not be find")]) 404)
  else
    body <- todo_schema_dump todo ;;
    ret (reply body 200).

(** [POST, PUT /todos/<int:pk>/toggle]. *)
Definition toggledone (pk : Z) : M response :=
  found <- attempt (Todo_get (fun r => TodoRow.id r =? pk)) ;;
  match found with
  | Raise (DoesNotExist TodoModel) =>
      ret (reply (JObj [("message", JStr "Todo could not be found")]) 404)
  | Raise e => raise e
  | Return todo =>
      let status := negb (Todo.is_done todo) in
      let update_query := Todo.update todo status in
      _ <- Todo_execute update_query ;;
      body <- todo_schema_dump todo ;;
      ret (reply body 200)
  end.

(** [POST /todos/], inside [@requires_auth]. *)
Definition new_todo_view (now : datetime) (user : User.t) (req : request)
  : M response :=
  let json_input := get_json req in
  match todo_schema_load now json_input with
  | Raise (ValidationError messages) =>
      ret (reply (JObj [("errors", messages)]) 422)
  | Raise e => raise e
  | Return None => raise (AttributeError "user")
  | Return (Some todo) =>
      let todo := Todo.Build (Todo.id todo) (Todo.content todo)
                             (Todo.is_done todo) (FkObj user)
                             (Todo.posted_on todo) in
      todo <- Todo_save todo ;;
      body <- todo_schema_dump todo ;;
      ret (reply body 200)
  end.

Definition new_todo (now : datetime) : request -> M response :=
  requires_auth (new_todo_view now).

End Application.

(* ------------------------------------------------------------------ *)
(** ** A concrete library and a concrete database for the examples *)

Fixpoint has_at (s : string) : bool :=
  match s with
  | EmptyString => false
  | String c s' => if Ascii.eqb c "@"%char then true else has_at s'
  end.

(** A pattern that only asks for an at sign, booleans read from JSON
    booleans alone, and timestamps printed as their number. *)
Definition example_email_pattern (s : string) : bool := has_at s.

Definition example_boolean_value (v : json) : option bool :=
  match v with
  | JBool b => Some b
  | _ => None
  end.

Definition example_isoformat (t : datetime) : string := str_of_int t.

Definition alice : User.t := User.Build 1 "a@b.com" "secret1" 10.

Definition example_db : DB :=
  BuildDB [alice]
          [TodoRow.Build 1 "buy milk" false 1 20;
           TodoRow.Build 2 "walk the dog" false 1 30].

Definition empty_db : DB := BuildDB [] [].

Definition no_credentials (payload : dict json) : request :=
  BuildRequest None payload.

Definition as_alice (payload : dict json) : request :=
  BuildRequest (Some ("a@b.com", "secret1")) payload.

(* ------------------------------------------------------------------ *)
(** ** Properties *)

(** The expressions [Todo.id == pk] and [User.email == e] of the views. *)
Abbreviation has_id pk := (fun r => TodoRow.id r =? pk).

Abbreviation has_email e := (fun u => String.eqb (User.email u) e).

(** The request carries the credentials of the stored user [user]: what
    lets [requires_auth] run the wrapped view with [user]. *)
Definition authenticates (db : DB) (req : request) (user : User.t) : Prop :=
  exists username password,
    authorization req = Some (username, password)
    /\ find (has_email username) (users db) = Some user
    /\ User.password user = password.

(** The answer of [register] to an address that is already stored. *)
Definition conflict : response :=
  reply (JObj [("errors",
                JStr "That email address is already in the database")])
        400.

(* ------------------------------------------------------------------ *)
(** ** The list view, the application and its invariants *)

(** [ORDER BY posted_on ASC]: the rows by ascending [posted_on].  SQL
    leaves the order of rows with equal timestamps open; here they stay
    in table order. *)
Fixpoint insert_by_posted_on (r : TodoRow.t) (rows : TodoRow.table)
  : TodoRow.table :=
  match rows with
  | [] => [r]
  | r' :: rows' =>
      if TodoRow.posted_on r <=? TodoRow.posted_on r'
      then r :: r' :: rows'
      else r' :: insert_by_posted_on r rows'
  end.

(** The order that [ORDER BY posted_on ASC] asks for. *)
Definition earlier (a b : TodoRow.t) : Prop :=
  TodoRow.posted_on a <= TodoRow.posted_on b.

Definition order_by_posted_on (rows : TodoRow.table) : TodoRow.table :=
  fold_right insert_by_posted_on [] rows.

(** [list(Todo.select().order_by(Todo.posted_on.asc()))]. *)
Definition Todo_select_order_by_posted_on : M (list Todo.t) :=
  fun db => (Return (map Todo.of_row (order_by_posted_on (todos db))), db).

Section Listing.

Variable isoformat : datetime -> string.

(** Modelled from the spec: the fields of one todo as [Schema.dump] of
    the library reads them off the instance (section 4.2, dump path,
    step 1), before any [post_dump] hook; the same fields as in
    [todo_schema_dump]. *)
Definition TodoSchema_serialize (todo : Todo.t) : M json :=
  user <- Todo_user todo ;;
  ret (JObj [("id", match Todo.id todo with
                    | Some pk => JInt pk
                    | None => JNull
                    end);
             ("done", JBool (Todo.is_done todo));
             ("user", UserSchema_dump isoformat ["joined_on"; "password"] user);
             ("content", JStr (Todo.content todo));
             ("posted_on", JStr (isoformat (Todo.posted_on todo)))]).

Fixpoint TodoSchema_serialize_many (todos : list Todo.t) : M (list json) :=
  match todos with
  | [] => ret []
  | todo :: rest =>
      item <- TodoSchema_serialize todo ;;
      items <- TodoSchema_serialize_many rest ;;
      ret (item :: items)
  end.

(** [todos_schema = TodoSchema(many=True)].  Modelled from the spec:
    [Schema.dump] of the library for a sequence (section 4.2, dump
    path): every item is serialized, then the [pass_many] hook runs once
    on the list. *)
Definition todos_schema_dump (todos : list Todo.t) : M json :=
  items <- TodoSchema_serialize_many todos ;;
  ret (TodoSchema_wrap (JList items) true).

(** [GET /todos/]. *)
Definition get_todos : M response :=
  todos <- Todo_select_order_by_posted_on ;;
  body <- todos_schema_dump todos ;;
  ret (reply body 200).

(** The entry of the row [r], owned by [u], in a dump. *)
Definition todo_entry (r : TodoRow.t) (u : User.t) : json :=
  JObj [("id", JInt (TodoRow.id r));
        ("done", JBool (TodoRow.is_done r));
        ("user", JObj [("user", JObj [("id", JInt (User.id u));
                                      ("email", JStr (User.email u))])]);
        ("content", JStr (TodoRow.content r));
        ("posted_on", JStr (isoformat (TodoRow.posted_on r)))].

End Listing.

(** One request to the application: the view its route selects, with
    what the HTTP layer hands to it. *)
Inductive call : Type :=
| Register (now : datetime) (req : request)
| GetTodos
| GetTodo (pk : Z)
| ToggleDone (pk : Z)
| NewTodo (now : datetime) (req : request).

Section Routes.

Variable email_pattern : string -> bool.
Variable boolean_value : json -> option bool.
Variable isoformat : datetime -> string.
Variable unknown : unknown_policy.

Definition run (c : call) : M response :=
  match c with
  | Register now req =>
      register email_pattern boolean_value isoformat unknown now req
  | GetTodos => get_todos isoformat
  | GetTodo pk => get_todo isoformat pk
  | ToggleDone pk => toggledone isoformat pk
  | NewTodo now req => new_todo boolean_value isoformat unknown now req
  end.

(** The databases the application can be in, starting from empty
    tables. *)
Inductive reachable : DB -> Prop :=
| reachable_empty : reachable empty_db
| reachable_run (c : call) (db : DB) :
    reachable db -> reachable (snd (run c db)).

End Routes.

(** The application with the concrete library of the examples. *)
Definition example_run : call -> M response :=
  run example_email_pattern example_boolean_value example_isoformat RAISE.

Definition carol_request : request :=
  no_credentials [("email", JStr " Carol@Example.org");
                  ("password", JStr "secret3")].

(** The database after Carol registered and posted one todo, starting
    from empty tables. *)
Definition carol_db : DB :=
  snd (example_run
         (NewTodo 99 (BuildRequest (Some ("carol@example.org", "secret3"))
                                   [("content", JStr "water the plants")]))
         (snd (example_run (Register 40 carol_request) empty_db))).

(** What [process_input] makes of an address. *)
Definition normalize (e : string) : string := Str.strip (Str.lower e).

(** A string that does not start with a blank. *)
Definition clean_head (s : string) : Prop :=
  match s with
  | EmptyString => True
  | String c _ => Str.isspace c = false
  end.

(** The owner of a row, as reading [todo.user] finds it. *)
Definition owner (db : DB) (r : TodoRow.t) : option User.t :=
  find (fun u => User.id u =? TodoRow.user_id r) (users db).

Definition emails_unique (db : DB) : Prop :=
  NoDup (map User.email (users db)).

Definition emails_normalized (db : DB) : Prop :=
  forall u, In u (users db) -> normalize (User.email u) = User.email u.

Definition ids_unique (db : DB) : Prop :=
  NoDup (map User.id (users db)) /\ NoDup (map TodoRow.id (todos db)).

(** SQLite's integers, and its largest rowid. *)
Definition max_rowid : Z := 9223372036854775807.

Definition int64 (n : Z) : Prop := - max_rowid - 1 <= n <= max_rowid.

(** Every key in use is below the largest rowid, so that the next
    INSERT gets the largest key plus one. *)
Definition rowids_below_max (db : DB) : Prop :=
  (forall u, In u (users db) -> User.id u < max_rowid)
  /\ (forall r, In r (todos db) -> TodoRow.id r < max_rowid).

Definition owners_stored (db : DB) : Prop :=
  forall r, In r (todos db) -> exists u, owner db r = Some u.

(** The columns of a todo that no view writes after the INSERT. *)
Definition frozen (r : TodoRow.t) : Z * string * Z * datetime :=
  (TodoRow.id r, TodoRow.content r, TodoRow.user_id r, TodoRow.posted_on r).

(** [db'] has the users of [db] unchanged, then possibly more, and the
    todos of [db] with their frozen columns unchanged, then possibly
    more. *)
Definition extends (db db' : DB) : Prop :=
  (exists us, users db' = (users db ++ us)%list)
  /\ (exists rs, map frozen (todos db') = (map frozen (todos db) ++ rs)%list).

(** The writes a view can leave behind: none, one new user, new flags,
    one new todo. *)
Inductive effect (db : DB) : DB -> Prop :=
| NoWrite : effect db db
| UserAdded (e p : string) (t : datetime) :
    existsb (has_email e) (users db) = false ->
    normalize e = e ->
    effect db (BuildDB (users db
                        ++ [User.Build (User.next_id (users db)) e p t])%list
                       (todos db))
| FlagsSet (b : bool) :
    effect db (BuildDB (users db)
                       (map (TodoRow.set_is_done b) (todos db)))
| TodoAdded (c : string) (d : bool) (u : User.t) (t : datetime) :
    In u (users db) ->
    effect db (BuildDB (users db)
                       (todos db
                        ++ [TodoRow.Build (TodoRow.next_id (todos db)) c d
                                          (User.id u) t])%list).

Ltac run_view :=
  unfold bind, attempt, ret, raise, lift, reply,
    Todo_get, Todo_execute, Todo_save, Todo_user, User_get, User_create,
    Todo.get, User.get, Todo.update in *;
  cbn [fst snd users todos Todo.user Todo.is_done Todo.of_row
       Todo.where_ Todo.set_is_done Todo.truthy negb] in *.

Section Dicts.

Variable V : Type.

Lemma dict_get_set_same (k : string) (v : V) (d : dict V) :
  dict_get k (dict_set k v d) = Some v.
Proof.
  induction d as [| [k' v'] d IH]; cbn.
  - now rewrite String.eqb_refl.
  - destruct (String.eqb k k') eqn:E; cbn; rewrite ?E, ?String.eqb_refl;
      auto.
Qed.

Lemma dict_get_set_other (k k' : string) (v : V) (d : dict V) :
  k <> k' -> dict_get k (dict_set k' v d) = dict_get k d.
Proof.
  intros Hk. apply String.eqb_neq in Hk.
  induction d as [| [k0 v0] d IH]; cbn.
  - now rewrite Hk.
  - destruct (String.eqb k' k0) eqn:E; cbn.
    + apply String.eqb_eq in E. subst k0. now rewrite Hk.
    + now rewrite IH.
Qed.

End Dicts.

Section Store.

Variable isoformat : datetime -> string.

Lemma find_set_is_done (pk : Z) (b : bool) (rows : TodoRow.table) :
  find (has_id pk) (map (TodoRow.set_is_done b) rows)
  = option_map (TodoRow.set_is_done b) (find (has_id pk) rows).
Proof.
  induction rows as [| r rows IH]; cbn; auto.
  destruct (TodoRow.id r =? pk); auto.
Qed.

Lemma set_is_done_twice (b : bool) (r : TodoRow.t) :
  TodoRow.set_is_done (TodoRow.is_done r)
    (TodoRow.set_is_done b r) = r.
Proof. now destruct r. Qed.

Lemma map_set_is_done_twice (b b' : bool) (rows : TodoRow.table) :
  map (TodoRow.set_is_done b') (map (TodoRow.set_is_done b) rows)
  = map (TodoRow.set_is_done b') rows.
Proof. rewrite map_map. apply map_ext. now intros []. Qed.

(** The dump at the end of a view does not write. *)
Lemma todo_schema_dump_reads (todo : Todo.t) (db : DB) :
  snd (todo_schema_dump isoformat todo db) = db.
Proof.
  unfold todo_schema_dump. run_view.
  destruct (Todo.user todo); cbn; auto.
  destruct (find _ (users db)); auto.
Qed.

(** What [toggledone] leaves in the database when the key is found:
    the UPDATE has no WHERE clause, so every row takes the new flag. *)
Lemma toggledone_found (pk : Z) (db : DB) (r : TodoRow.t) :
  find (has_id pk) (todos db) = Some r ->
  snd (toggledone isoformat pk db)
  = BuildDB (users db)
            (map (TodoRow.set_is_done (negb (TodoRow.is_done r)))
                 (todos db)).
Proof.
  intros Hfind. unfold toggledone. run_view.
  rewrite Hfind. cbn.
  destruct (User.get _ _); cbn; unfold Todo.execute; cbn; reflexivity.
Qed.

Lemma toggledone_missing (pk : Z) (db : DB) :
  find (has_id pk) (todos db) = None ->
  toggledone isoformat pk db
  = (Return (reply (JObj [("message", JStr "Todo could not be found")])
                   404), db).
Proof.
  intros Hfind. unfold toggledone. run_view.
  now rewrite Hfind.
Qed.

Lemma get_todo_missing (pk : Z) (db : DB) :
  find (has_id pk) (todos db) = None ->
  get_todo isoformat pk db = (Raise (DoesNotExist TodoModel), db).
Proof.
  intros Hfind. unfold get_todo. run_view.
  now rewrite Hfind.
Qed.

(** Apart from [is_done], [toggledone] leaves every row and the users
    as they were. *)
Lemma toggledone_frame (pk : Z) (db : DB) :
  let db' := snd (toggledone isoformat pk db) in
  users db' = users db
  /\ map TodoRow.id (todos db') = map TodoRow.id (todos db)
  /\ map TodoRow.content (todos db') = map TodoRow.content (todos db)
  /\ map TodoRow.user_id (todos db') = map TodoRow.user_id (todos db)
  /\ map TodoRow.posted_on (todos db') = map TodoRow.posted_on (todos db).
Proof.
  cbv zeta. destruct (find (has_id pk) (todos db)) as [r |] eqn:Hfind.
  - rewrite (toggledone_found _ _ Hfind). cbn.
    rewrite !map_map. cbn. auto.
  - rewrite (toggledone_missing _ _ Hfind). cbn. auto.
Qed.

(** C6: toggling a stored todo twice in a row brings the first row with
    that key, the one [Todo.get] selects, back to what it was before
    the first call; in particular its persisted [is_done] has its
    original value. *)
Theorem toggledone_twice_restores (pk : Z) (db : DB) (r : TodoRow.t) :
  find (has_id pk) (todos db) = Some r ->
  let db1 := snd (toggledone isoformat pk db) in
  let db2 := snd (toggledone isoformat pk db1) in
  find (has_id pk) (todos db2) = Some r
  /\ option_map TodoRow.is_done (find (has_id pk) (todos db2))
     = Some (TodoRow.is_done r).
Proof.
  intros Hfind db1 db2.
  assert (H1 : find (has_id pk) (todos db1)
               = Some (TodoRow.set_is_done (negb (TodoRow.is_done r)) r)).
  { unfold db1. rewrite (toggledone_found _ _ Hfind). cbn.
    now rewrite find_set_is_done, Hfind. }
  assert (H2 : find (has_id pk) (todos db2) = Some r).
  { unfold db2. rewrite (toggledone_found _ _ H1). cbn.
    rewrite find_set_is_done, H1. cbn. rewrite negb_involutive.
    now rewrite set_is_done_twice. }
  split; [exact H2 | now rewrite H2].
Qed.

End Store.

Section Loading.

Variable email_pattern : string -> bool.
Variable boolean_value : json -> option bool.
Variable unknown : unknown_policy.

Lemma dict_get_app (V : Type) (k : string) (v : V) (d d' : dict V) :
  dict_get k d = Some v -> dict_get k (d ++ d')%list = Some v.
Proof.
  induction d as [| [k' v'] d IH]; cbn; [discriminate |].
  destruct (String.eqb k k'); auto.
Qed.

Lemma item_messages_json (k : string) (msgs : list string)
      (errors : dict (list string)) :
  dict_get k errors = Some msgs ->
  item k (messages_json errors) = Some (JList (map JStr msgs)).
Proof.
  unfold messages_json. cbn.
  induction errors as [| [k' m] errors IH]; cbn; [discriminate |].
  destruct (String.eqb k k'); auto.
  now intros [= ->].
Qed.

(** A payload whose keys are all [k] has no other key. *)
Lemma dict_get_other_key (V : Type) (k k' : string) (d : dict V) :
  (forall key v, In (key, v) d -> key = k) -> k' <> k ->
  dict_get k' d = None.
Proof.
  intros Hkeys Hk. induction d as [| [k0 v0] d IH]; cbn; auto.
  assert (k0 = k) as -> by (apply (Hkeys k0 v0); now left).
  apply String.eqb_neq in Hk. rewrite Hk.
  apply IH. intros key v Hin. apply (Hkeys key v). now right.
Qed.

(** A load that succeeds went through all three stages. *)
Lemma load_Return (A : Type) (pre : dict json -> result (dict json))
      (fs : list LoadField) (post : dict json -> result A)
      (payload : dict json) (a : A) :
  load boolean_value unknown pre fs post payload = Return a ->
  exists processed data,
    pre payload = Return processed
    /\ deserialize boolean_value unknown fs processed = (data, [])
    /\ post data = Return a.
Proof.
  unfold load. destruct (pre payload) as [processed | e]; [| discriminate].
  destruct (deserialize boolean_value unknown fs processed)
    as [data [| err errors]] eqn:Hd; [| discriminate].
  intros H. exists processed, data. repeat split; auto.
Qed.

(** A load with a violation raises [ValidationError] with all of the
    collected messages. *)
Lemma load_Raise (A : Type) (pre : dict json -> result (dict json))
      (fs : list LoadField) (post : dict json -> result A)
      (payload processed : dict json) (data : dict json)
      (errors : dict (list string)) :
  pre payload = Return processed ->
  deserialize boolean_value unknown fs processed = (data, errors) ->
  errors <> [] ->
  load boolean_value unknown pre fs post payload
  = Raise (ValidationError (messages_json errors)).
Proof.
  unfold load. intros -> -> Hne. destruct errors; congruence.
Qed.

Lemma deserialize_ok (fs : list LoadField) (payload data : dict json) :
  deserialize boolean_value unknown fs payload = (data, []) ->
  exists declared extra,
    load_fields boolean_value fs payload = (declared, [])
    /\ data = (declared ++ extra)%list.
Proof.
  unfold deserialize.
  destruct (load_fields boolean_value fs payload) as [declared errors].
  destruct (load_unknown unknown fs payload) as [extra errors'].
  intros [= <- H]. apply app_eq_nil in H as [-> ->].
  now exists declared, extra.
Qed.

(** The two fields of the User schema, when neither reports a
    violation. *)
Lemma UserSchema_fields_ok (payload declared : dict json) :
  load_fields boolean_value (UserSchema_load_fields email_pattern) payload
  = (declared, []) ->
  exists e p,
    dict_get "email" payload = Some (JStr e)
    /\ dict_get "password" payload = Some (JStr p)
    /\ declared = [("email", JStr e); ("password", JStr p)]
    /\ email_pattern e = true
    /\ 6 <= Str.len p <= 36.
Proof.
  cbn [load_fields UserSchema_load_fields]. unfold load_field.
  cbn [data_key attribute ftype required missing validate
       deserialize_value flat_map app Email Length].
  destruct (dict_get "email" payload) as [[| ? | ? | e | ? | ?] |];
    destruct (dict_get "password" payload) as [[| ? | ? | p | ? | ?] |];
    cbn;
    repeat match goal with
           | |- context [if ?b then _ else _] => destruct b eqn:?; cbn
           end;
    try discriminate.
  intros [= <-]. exists e, p. repeat split; auto.
  all: match goal with
       | H : (_ && _)%bool = true |- _ => apply andb_prop in H as [H1 H2]
       end;
    apply Z.leb_le in H1, H2; lia.
Qed.

(** The two fields of the Todo schema, when neither reports a
    violation. *)
Lemma TodoSchema_fields_ok (payload declared : dict json) :
  load_fields boolean_value TodoSchema_load_fields payload
  = (declared, []) ->
  exists c d,
    dict_get "content" payload = Some (JStr c)
    /\ declared = [("is_done", JBool d); ("content", JStr c)]
    /\ (dict_get "done" payload = None -> d = false).
Proof.
  cbn [load_fields TodoSchema_load_fields]. unfold load_field.
  cbn [data_key attribute ftype required missing validate
       deserialize_value flat_map app].
  destruct (dict_get "content" payload) as [[| ? | ? | c | ? | ?] |];
    cbn; try (destruct (dict_get "done" payload) as [[] |];
              cbn; repeat destruct (boolean_value _); discriminate).
  destruct (dict_get "done" payload) as [v |].
  - destruct v; cbn; try discriminate;
      match goal with
      | |- context [boolean_value ?v] =>
          destruct (boolean_value v) as [d |]; cbn; try discriminate;
          intros [= <-]; exists c, d; repeat split; discriminate
      end.
  - cbn. intros [= <-]. exists c, false. repeat split; auto.
Qed.

(** A payload without [content] gets the message of a missing required
    field under that key, whatever else is wrong with it. *)
Lemma TodoSchema_content_missing (payload : dict json) :
  dict_get "content" payload = None ->
  dict_get "content"
    (snd (deserialize boolean_value unknown TodoSchema_load_fields payload))
  = Some ["Missing data for required field."].
Proof.
  intros Hc. unfold deserialize.
  destruct (load_fields boolean_value TodoSchema_load_fields payload)
    as [declared errors] eqn:Hf.
  destruct (load_unknown unknown TodoSchema_load_fields payload)
    as [extra errors'].
  cbn [snd]. apply dict_get_app.
  revert Hf. cbn [load_fields TodoSchema_load_fields]. unfold load_field.
  cbn [data_key attribute ftype required missing validate
       deserialize_value flat_map app].
  rewrite Hc.
  destruct (dict_get "done" payload) as [v |]; cbn.
  - destruct v; cbn; try (intros [= <- <-]; reflexivity);
      match goal with
      | |- context [boolean_value ?v] =>
          destruct (boolean_value v); cbn; intros [= <- <-]; reflexivity
      end.
  - intros [= <- <-]. reflexivity.
Qed.

End Loading.

Section Views.

Variable email_pattern : string -> bool.
Variable boolean_value : json -> option bool.
Variable isoformat : datetime -> string.
Variable unknown : unknown_policy.

Lemma find_email_none (rows : User.table) (e : string) :
  (forall u, In u rows -> User.email u <> e) ->
  find (has_email e) rows = None
  /\ existsb (has_email e) rows = false.
Proof.
  induction rows as [| u rows IH]; cbn; auto.
  intros H. destruct (String.eqb (User.email u) e) eqn:E.
  - apply String.eqb_eq in E. now destruct (H u (or_introl eq_refl)).
  - cbn. apply IH. intros u' Hin. apply H. now right.
Qed.

Lemma find_email_some (rows : User.table) (e : string) (u : User.t) :
  In u rows -> User.email u = e ->
  exists u', find (has_email e) rows = Some u'.
Proof.
  induction rows as [| u0 rows IH]; cbn; [tauto |].
  intros [-> | Hin] He.
  - subst e. rewrite String.eqb_refl. eauto.
  - destruct (String.eqb (User.email u0) e); eauto.
Qed.

(** With the credentials of a stored user the decorator runs the view,
    handing it that user. *)
Lemma requires_auth_passes (f : User.t -> request -> M response)
      (req : request) (db : DB) (user : User.t) :
  authenticates db req user ->
  requires_auth f req db = f user req db.
Proof.
  intros (username & password & Ha & Hf & Hp).
  unfold requires_auth, check_auth. rewrite Ha. run_view.
  rewrite Hf. cbn. subst password. rewrite String.eqb_refl. cbn.
  now rewrite Hf.
Qed.

(** What a successful User load returns: the normalized address and
    the password of the payload, in front of anything passed through. *)
Lemma user_schema_load_Return (payload data : dict json) (e : string) :
  dict_get "email" payload = Some (JStr e) ->
  user_schema_load email_pattern boolean_value unknown payload
  = Return data ->
  exists p extra,
    dict_get "password" payload = Some (JStr p)
    /\ data = (("email", JStr (Str.strip (Str.lower e)))
               :: ("password", JStr p) :: extra).
Proof.
  intros He Hload. unfold user_schema_load in Hload.
  apply load_Return in Hload as (processed & data' & Hpre & Hd & [= ->]).
  unfold process_input in Hpre. rewrite He in Hpre.
  injection Hpre as <-.
  apply deserialize_ok in Hd as (declared & extra & Hf & ->).
  apply UserSchema_fields_ok in Hf as (e' & p & He' & Hp & -> & _).
  rewrite dict_get_set_same in He'. injection He' as <-.
  rewrite dict_get_set_other in Hp by discriminate.
  now exists p, extra.
Qed.

Lemma register_missing_email (now : datetime) (req : request) (db : DB) :
  dict_get "email" (get_json req) = None ->
  register email_pattern boolean_value isoformat unknown now req db
  = (Raise (KeyError "email"), db).
Proof.
  intros He. unfold register, user_schema_load, load, process_input.
  now rewrite He.
Qed.

(** C7: a payload that passes the User schema, with an address no
    stored user has once lower-cased and stripped, is answered with
    201; the new row holds the normalized address, the body has no
    [password] key at either level, and its [message] ends with the
    normalized address. *)
Theorem register_creates_user (now : datetime) (req : request) (db : DB)
        (e : string) (data : dict json) :
  dict_get "email" (get_json req) = Some (JStr e) ->
  user_schema_load email_pattern boolean_value unknown (get_json req)
  = Return data ->
  (forall u, In u (users db) -> User.email u <> Str.strip (Str.lower e)) ->
  exists p resp user_obj,
    dict_get "password" (get_json req) = Some (JStr p)
    /\ register email_pattern boolean_value isoformat unknown now req db
       = (Return resp,
          BuildDB (users db
                   ++ [User.Build (User.next_id (users db))
                                  (Str.strip (Str.lower e)) p now])%list
                  (todos db))
    /\ status_code resp = 201
    /\ body resp
       = JObj [("user", user_obj);
               ("message",
                JStr ("Successfully created user: "
                      ++ Str.strip (Str.lower e)))]
    /\ user_obj
       = JObj [("id", JInt (User.next_id (users db)));
               ("email", JStr (Str.strip (Str.lower e)));
               ("joined_on", JStr (isoformat now))]
    /\ item "password" (body resp) = None
    /\ item "password" user_obj = None.
Proof.
  intros He Hload Hnew.
  destruct (user_schema_load_Return _ He Hload) as (p & extra & Hp & ->).
  destruct (find_email_none _ Hnew) as [Hfind Hex].
  exists p. eexists. eexists. split; [exact Hp |].
  unfold register. rewrite Hload. run_view. cbn.
  rewrite Hfind. cbn. unfold User.create. rewrite Hex. cbn.
  repeat split; reflexivity.
Qed.

(** C5, amended: a payload that passes the User schema and whose
    address, lower-cased and stripped, is the address of a stored user
    is answered with 400 and the conflict message, and the database is
    left as it was. *)
Theorem register_conflict (now : datetime) (req : request) (db : DB)
        (e : string) (data : dict json) :
  dict_get "email" (get_json req) = Some (JStr e) ->
  user_schema_load email_pattern boolean_value unknown (get_json req)
  = Return data ->
  (exists u, In u (users db) /\ User.email u = Str.strip (Str.lower e)) ->
  register email_pattern boolean_value isoformat unknown now req db
  = (Return conflict, db).
Proof.
  intros He Hload (u & Hin & Hu).
  destruct (user_schema_load_Return _ He Hload) as (p & extra & Hp & ->).
  destruct (find_email_some _ _ Hin Hu) as (u' & Hfind).
  unfold register. rewrite Hload. run_view. cbn.
  rewrite Hfind. reflexivity.
Qed.

(** What a successful Todo load went through: validated data that
    holds a [str] under [content] and a [bool] under [is_done], the
    default when the payload has no [done]. *)
Lemma todo_schema_deserialize_ok (payload data : dict json) :
  deserialize boolean_value unknown TodoSchema_load_fields payload
  = (data, []) ->
  exists c d extra,
    dict_get "content" payload = Some (JStr c)
    /\ data = (("is_done", JBool d) :: ("content", JStr c) :: extra)
    /\ (dict_get "done" payload = None -> d = false).
Proof.
  intros Hd.
  apply deserialize_ok in Hd as (declared & extra & Hf & ->).
  apply TodoSchema_fields_ok in Hf as (c & d & Hc & -> & Hdone).
  now exists c, d, extra.
Qed.

(** C10: whenever validation of a Todo payload reports no violation,
    which is when the Todo schema load goes on to its [post_load] hook,
    the validated data is not empty and holds both [content] and
    [is_done] ([False] when the payload has no [done]); on it
    [make_object] takes neither its empty branch nor a failing lookup
    and returns a Todo, so the load succeeds and hands a Todo object,
    not [None], to the view. *)
Theorem todo_schema_load_makes_todo (now : datetime)
        (payload data : dict json) :
  deserialize boolean_value unknown TodoSchema_load_fields payload
  = (data, []) ->
  exists c d,
    data <> []
    /\ dict_get "content" data = Some (JStr c)
    /\ dict_get "is_done" data = Some (JBool d)
    /\ (dict_get "done" payload = None -> d = false)
    /\ make_object now data
       = Return (Some (Todo.Build None c d FkUnset now))
    /\ todo_schema_load boolean_value unknown now payload
       = Return (Some (Todo.Build None c d FkUnset now)).
Proof.
  intros Hd.
  destruct (todo_schema_deserialize_ok _ Hd) as (c & d & extra & Hc & -> & H).
  exists c, d.
  split; [discriminate |]. split; [reflexivity |]. split; [reflexivity |].
  split; [exact H |].
  split; [reflexivity |].
  unfold todo_schema_load, load. rewrite Hd. reflexivity.
Qed.

(** A Todo load that returns went through validation without a
    violation: the hypothesis of the theorem above is the only way to
    the [post_load] hook. *)
Lemma todo_schema_load_validated (now : datetime) (payload : dict json)
      (loaded_todo : option Todo.t) :
  todo_schema_load boolean_value unknown now payload = Return loaded_todo ->
  exists data,
    deserialize boolean_value unknown TodoSchema_load_fields payload
    = (data, []).
Proof.
  intros Hload. unfold todo_schema_load in Hload.
  apply load_Return in Hload as (processed & data & [= <-] & Hd & _).
  now exists data.
Qed.

(** C9: with the credentials of a stored user, a payload without
    [content] is answered with 422 and an [errors] object that has the
    key [content]; the database is left as it was. *)
Theorem new_todo_missing_content (now : datetime) (req : request)
        (db : DB) (user : User.t) :
  authenticates db req user ->
  dict_get "content" (get_json req) = None ->
  exists messages,
    new_todo boolean_value isoformat unknown now req db
    = (Return (reply (JObj [("errors", messages)]) 422), db)
    /\ item "content" messages
       = Some (JList [JStr "Missing data for required field."]).
Proof.
  intros Hauth Hc. unfold new_todo.
  rewrite (requires_auth_passes _ Hauth).
  pose proof (TodoSchema_content_missing boolean_value unknown _ Hc) as He.
  destruct (deserialize boolean_value unknown TodoSchema_load_fields
                        (get_json req)) as [data errors] eqn:Hd.
  cbn [snd] in He.
  exists (messages_json errors). split.
  - unfold new_todo_view, todo_schema_load.
    rewrite (@load_Raise boolean_value unknown _ _ _ _ _ _ data errors
                         eq_refl Hd).
    + reflexivity.
    + intros ->. discriminate.
  - now apply item_messages_json in He.
Qed.

(** C8, amended: with the credentials of a stored user and a payload
    whose only key is [content], holding a string, the new row has
    [is_done] false, the key of that user and the time of the request,
    and the answer is the envelope [todo] around [id], [done], [user],
    [content] and [posted_on], where [user] is itself the envelope
    [user] around [id] and [email]. *)
Theorem new_todo_creates_todo (now : datetime) (req : request) (db : DB)
        (user : User.t) (c : string) :
  authenticates db req user ->
  dict_get "content" (get_json req) = Some (JStr c) ->
  (forall k v, In (k, v) (get_json req) -> k = "content") ->
  let pk := TodoRow.next_id (todos db) in
  new_todo boolean_value isoformat unknown now req db
  = (Return
       (reply
          (JObj
             [("todo",
               JObj [("id", JInt pk);
                     ("done", JBool false);
                     ("user",
                      JObj [("user",
                             JObj [("id", JInt (User.id user));
                                   ("email", JStr (User.email user))])]);
                     ("content", JStr c);
                     ("posted_on", JStr (isoformat now))])])
          200),
     BuildDB (users db)
             (todos db ++ [TodoRow.Build pk c false (User.id user) now])%list).
Proof.
  intros Hauth Hc Hkeys pk. unfold new_todo.
  rewrite (requires_auth_passes _ Hauth).
  assert (Hdone : dict_get "done" (get_json req) = None)
    by (apply (dict_get_other_key _ Hkeys); discriminate).
  assert (Hextra :
            filter (fun kv : string * json =>
                      negb (mem (fst kv)
                                (map data_key TodoSchema_load_fields)))
                   (get_json req) = []).
  { clear Hc Hdone Hauth. induction (get_json req) as [| [k v] d IH]; auto.
    cbn [filter]. rewrite (Hkeys k v (or_introl eq_refl)). cbn.
    apply IH. intros k' v' Hin. apply (Hkeys k' v'). now right. }
  unfold new_todo_view, todo_schema_load, load, deserialize, load_unknown.
  rewrite Hextra.
  cbn [load_fields TodoSchema_load_fields]. unfold load_field.
  cbn [data_key attribute ftype required missing validate
       deserialize_value flat_map app].
  rewrite Hc, Hdone. cbn.
  destruct unknown; cbn; run_view; unfold Todo.save; cbn; reflexivity.
Qed.

(** The answer of [toggledone] for a stored todo whose owner is stored:
    the dump reads the instance fetched before the UPDATE, so [done]
    is the flag from before the call. *)
Lemma toggledone_response (pk : Z) (db : DB) (r : TodoRow.t) (u : User.t) :
  find (has_id pk) (todos db) = Some r ->
  find (fun u => User.id u =? TodoRow.user_id r) (users db) = Some u ->
  fst (toggledone isoformat pk db)
  = Return
      (reply
         (JObj
            [("todo",
              JObj [("id", JInt (TodoRow.id r));
                    ("done", JBool (TodoRow.is_done r));
                    ("user",
                     JObj [("user",
                            JObj [("id", JInt (User.id u));
                                  ("email", JStr (User.email u))])]);
                    ("content", JStr (TodoRow.content r));
                    ("posted_on", JStr (isoformat (TodoRow.posted_on r)))])])
         200).
Proof.
  intros Hr Hu. unfold toggledone, todo_schema_dump. run_view.
  rewrite Hr. cbn. rewrite Hu. reflexivity.
Qed.

End Views.

(* ------------------------------------------------------------------ *)
(** ** The views on concrete requests *)

(** C1: on a key that no row has, [get_todo] does not answer 404: the
    [Todo.DoesNotExist] of [Todo.get] leaves the view uncaught, its
    [if not todo] test never being reached; [toggledone], which has the
    [try], answers 404 with a message. *)
Theorem get_todo_unknown_id_raises :
  find (has_id 7) (todos example_db) = None
  /\ get_todo example_isoformat 7 example_db
     = (Raise (DoesNotExist TodoModel), example_db)
  /\ toggledone example_isoformat 7 example_db
     = (Return (reply (JObj [("message", JStr "Todo could not be found")])
                      404),
        example_db).
Proof. repeat split; reflexivity. Qed.

(** C2: toggling todo 1 also sets [is_done] of todo 2: the UPDATE that
    [toggledone] runs has no WHERE clause. *)
Theorem toggledone_rewrites_every_row :
  todos example_db
  = [TodoRow.Build 1 "buy milk" false 1 20;
     TodoRow.Build 2 "walk the dog" false 1 30]
  /\ todos (snd (toggledone example_isoformat 1 example_db))
     = [TodoRow.Build 1 "buy milk" true 1 20;
        TodoRow.Build 2 "walk the dog" true 1 30].
Proof. split; reflexivity. Qed.

(** C3: toggling todo 1, stored with [is_done] false, stores true but
    answers [done] false: the dump reads the instance that was fetched
    before the UPDATE. *)
Theorem toggledone_answers_old_flag :
  option_map TodoRow.is_done (find (has_id 1) (todos example_db))
  = Some false
  /\ option_map TodoRow.is_done
       (find (has_id 1)
             (todos (snd (toggledone example_isoformat 1 example_db))))
     = Some true
  /\ fst (toggledone example_isoformat 1 example_db)
     = Return
         (reply
            (JObj
               [("todo",
                 JObj [("id", JInt 1);
                       ("done", JBool false);
                       ("user",
                        JObj [("user", JObj [("id", JInt 1);
                                             ("email", JStr "a@b.com")])]);
                       ("content", JStr "buy milk");
                       ("posted_on", JStr "20")])])
            200).
Proof. repeat split; reflexivity. Qed.

(** C4: a registration payload without [email] is not answered with 422:
    the [pre_load] hook indexes the payload before any field is checked,
    and its [KeyError] leaves [register] uncaught. *)
Theorem register_without_email_raises :
  register example_email_pattern example_boolean_value example_isoformat
           RAISE 40 (no_credentials [("password", JStr "secret1")])
           example_db
  = (Raise (KeyError "email"), example_db).
Proof. reflexivity. Qed.

(** With [email] present, every violation is reported, under the key of
    its field. *)
Example register_collects_violations :
  register example_email_pattern example_boolean_value example_isoformat
           RAISE 40
           (no_credentials [("email", JStr "nobody"); ("password", JStr "x")])
           example_db
  = (Return
       (reply
          (JObj
             [("errors",
               JObj [("email", JList [JStr "Not a valid email address"]);
                     ("password",
                      JList [JStr "Length must be between 6 and 36."])])])
          422),
     example_db).
Proof. reflexivity. Qed.

(** C5 as stated fails: an address that differs from a stored one only
    in case, sent with a password of one character, is answered with
    422, not with the conflict. *)
Lemma register_duplicate_email_short_password :
  (exists u, In u (users example_db)
             /\ User.email u = Str.strip (Str.lower "A@B.com"))
  /\ register example_email_pattern example_boolean_value example_isoformat
              RAISE 40
              (no_credentials [("email", JStr "A@B.com");
                               ("password", JStr "x")])
              example_db
     = (Return
          (reply
             (JObj
                [("errors",
                  JObj [("password",
                         JList [JStr "Length must be between 6 and 36."])])])
             422),
        example_db)
  /\ register example_email_pattern example_boolean_value example_isoformat
              RAISE 40
              (no_credentials [("email", JStr "A@B.com");
                               ("password", JStr "x")])
              example_db
     <> (Return conflict, example_db).
Proof.
  split; [exists alice; split; [now left | reflexivity] |].
  split; [reflexivity | discriminate].
Qed.

(** C8 as stated fails: in the answer to [{content: "buy milk"}] the
    value of [user] has the single key [user]; [id] and [email] are one
    level further down. *)
Lemma new_todo_nests_user_envelope :
  fst (new_todo example_boolean_value example_isoformat RAISE 99
                (as_alice [("content", JStr "buy milk")]) example_db)
  = Return
      (reply
         (JObj
            [("todo",
              JObj [("id", JInt 3);
                    ("done", JBool false);
                    ("user",
                     JObj [("user", JObj [("id", JInt 1);
                                          ("email", JStr "a@b.com")])]);
                    ("content", JStr "buy milk");
                    ("posted_on", JStr "99")])])
         200)
  /\ item "id" (JObj [("user", JObj [("id", JInt 1);
                                     ("email", JStr "a@b.com")])]) = None
  /\ item "email" (JObj [("user", JObj [("id", JInt 1);
                                        ("email", JStr "a@b.com")])]) = None.
Proof. repeat split; reflexivity. Qed.

(** Under the policy that rejects undeclared keys, a payload with a key
    beside [content] is answered with 422 and nothing is stored. *)
Example new_todo_rejects_undeclared_key :
  new_todo example_boolean_value example_isoformat RAISE 99
           (as_alice [("content", JStr "buy milk"); ("priority", JInt 1)])
           example_db
  = (Return
       (reply
          (JObj [("errors",
                  JObj [("priority", JList [JStr "Unknown field."])])])
          422),
     example_db).
Proof. reflexivity. Qed.

(* ------------------------------------------------------------------ *)
(** ** The theorems at concrete requests *)

Lemma toggledone_twice_restores_witness :
  find (has_id 1) (todos example_db)
  = Some (TodoRow.Build 1 "buy milk" false 1 20)
  /\ find (has_id 1)
          (todos (snd (toggledone example_isoformat 1
                         (snd (toggledone example_isoformat 1 example_db)))))
     = Some (TodoRow.Build 1 "buy milk" false 1 20).
Proof.
  split; [reflexivity |].
  exact (proj1 (@toggledone_twice_restores example_isoformat 1 example_db
                  (TodoRow.Build 1 "buy milk" false 1 20) eq_refl)).
Defined.

Lemma register_conflict_witness :
  dict_get "email"
    (get_json (no_credentials [("email", JStr "A@B.com ");
                               ("password", JStr "secret2")]))
  = Some (JStr "A@B.com ")
  /\ user_schema_load example_email_pattern example_boolean_value RAISE
       (get_json (no_credentials [("email", JStr "A@B.com ");
                                  ("password", JStr "secret2")]))
     = Return [("email", JStr "a@b.com"); ("password", JStr "secret2")]
  /\ (exists u, In u (users example_db)
                /\ User.email u = Str.strip (Str.lower "A@B.com "))
  /\ register example_email_pattern example_boolean_value example_isoformat
              RAISE 40
              (no_credentials [("email", JStr "A@B.com ");
                               ("password", JStr "secret2")])
              example_db
     = (Return conflict, example_db).
Proof.
  assert (H3 : exists u, In u (users example_db)
                         /\ User.email u = Str.strip (Str.lower "A@B.com "))
    by (exists alice; split; [now left | reflexivity]).
  split; [reflexivity |]. split; [reflexivity |]. split; [exact H3 |].
  exact (@register_conflict example_email_pattern example_boolean_value
           example_isoformat RAISE 40
           (no_credentials [("email", JStr "A@B.com ");
                            ("password", JStr "secret2")])
           example_db "A@B.com "
           [("email", JStr "a@b.com"); ("password", JStr "secret2")]
           eq_refl eq_refl H3).
Defined.

Lemma register_creates_user_witness :
  dict_get "email"
    (get_json (no_credentials [("email", JStr " A@B.com ");
                               ("password", JStr "secret1")]))
  = Some (JStr " A@B.com ")
  /\ user_schema_load example_email_pattern example_boolean_value RAISE
       (get_json (no_credentials [("email", JStr " A@B.com ");
                                  ("password", JStr "secret1")]))
     = Return [("email", JStr "a@b.com"); ("password", JStr "secret1")]
  /\ (forall u, In u (users empty_db) ->
                User.email u <> Str.strip (Str.lower " A@B.com "))
  /\ exists p resp user_obj,
      dict_get "password"
        (get_json (no_credentials [("email", JStr " A@B.com ");
                                   ("password", JStr "secret1")]))
      = Some (JStr p)
      /\ register example_email_pattern example_boolean_value
                  example_isoformat RAISE 40
                  (no_credentials [("email", JStr " A@B.com ");
                                   ("password", JStr "secret1")])
                  empty_db
         = (Return resp,
            BuildDB (users empty_db
                     ++ [User.Build (User.next_id (users empty_db))
                                    (Str.strip (Str.lower " A@B.com ")) p 40])%list
                    (todos empty_db))
      /\ status_code resp = 201
      /\ body resp
         = JObj [("user", user_obj);
                 ("message",
                  JStr ("Successfully created user: "
                        ++ Str.strip (Str.lower " A@B.com ")))]
      /\ user_obj
         = JObj [("id", JInt (User.next_id (users empty_db)));
                 ("email", JStr (Str.strip (Str.lower " A@B.com ")));
                 ("joined_on", JStr (example_isoformat 40))]
      /\ item "password" (body resp) = None
      /\ item "password" user_obj = None.
Proof.
  assert (H3 : forall u, In u (users empty_db) ->
                         User.email u <> Str.strip (Str.lower " A@B.com "))
    by (intros u []).
  split; [reflexivity |]. split; [reflexivity |]. split; [exact H3 |].
  exact (@register_creates_user example_email_pattern example_boolean_value
           example_isoformat RAISE 40
           (no_credentials [("email", JStr " A@B.com ");
                            ("password", JStr "secret1")])
           empty_db " A@B.com "
           [("email", JStr "a@b.com"); ("password", JStr "secret1")]
           eq_refl eq_refl H3).
Defined.

(** The address of the specification's example, as it is stored. *)
Example register_stores_normalized_email :
  Str.strip (Str.lower " A@B.com ") = "a@b.com"
  /\ users (snd (register example_email_pattern example_boolean_value
                          example_isoformat RAISE 40
                          (no_credentials [("email", JStr " A@B.com ");
                                           ("password", JStr "secret1")])
                          empty_db))
     = [User.Build 1 "a@b.com" "secret1" 40].
Proof. split; reflexivity. Qed.

Lemma new_todo_creates_todo_witness :
  authenticates example_db (as_alice [("content", JStr "buy milk")]) alice
  /\ dict_get "content" (get_json (as_alice [("content", JStr "buy milk")]))
     = Some (JStr "buy milk")
  /\ (forall k v,
        In (k, v) (get_json (as_alice [("content", JStr "buy milk")])) ->
        k = "content")
  /\ new_todo example_boolean_value example_isoformat RAISE 99
              (as_alice [("content", JStr "buy milk")]) example_db
     = (Return
          (reply
             (JObj
                [("todo",
                  JObj [("id", JInt (TodoRow.next_id (todos example_db)));
                        ("done", JBool false);
                        ("user",
                         JObj [("user",
                                JObj [("id", JInt (User.id alice));
                                      ("email", JStr (User.email alice))])]);
                        ("content", JStr "buy milk");
                        ("posted_on", JStr (example_isoformat 99))])])
             200),
        BuildDB (users example_db)
                (todos example_db
                 ++ [TodoRow.Build (TodoRow.next_id (todos example_db))
                                   "buy milk" false (User.id alice) 99])%list).
Proof.
  assert (H1 : authenticates example_db
                 (as_alice [("content", JStr "buy milk")]) alice)
    by (exists "a@b.com", "secret1"; repeat split; reflexivity).
  assert (H3 : forall k v,
             In (k, v) (get_json (as_alice [("content", JStr "buy milk")])) ->
             k = "content")
    by (intros k v [[= <- _] | []]; reflexivity).
  split; [exact H1 |]. split; [reflexivity |]. split; [exact H3 |].
  exact (@new_todo_creates_todo example_boolean_value example_isoformat RAISE
           99 (as_alice [("content", JStr "buy milk")]) example_db alice
           "buy milk" H1 eq_refl H3).
Defined.

Lemma new_todo_missing_content_witness :
  authenticates example_db (as_alice [("done", JBool true)]) alice
  /\ dict_get "content" (get_json (as_alice [("done", JBool true)])) = None
  /\ exists messages,
      new_todo example_boolean_value example_isoformat RAISE 99
               (as_alice [("done", JBool true)]) example_db
      = (Return (reply (JObj [("errors", messages)]) 422), example_db)
      /\ item "content" messages
         = Some (JList [JStr "Missing data for required field."]).
Proof.
  assert (H1 : authenticates example_db (as_alice [("done", JBool true)])
                 alice)
    by (exists "a@b.com", "secret1"; repeat split; reflexivity).
  split; [exact H1 |]. split; [reflexivity |].
  exact (@new_todo_missing_content example_boolean_value example_isoformat
           RAISE 99 (as_alice [("done", JBool true)]) example_db alice
           H1 eq_refl).
Defined.

Lemma todo_schema_load_makes_todo_witness :
  deserialize example_boolean_value RAISE TodoSchema_load_fields
              [("content", JStr "buy milk")]
  = ([("is_done", JBool false); ("content", JStr "buy milk")], [])
  /\ exists c d,
      [("is_done", JBool false); ("content", JStr "buy milk")] <> []
      /\ dict_get "content"
           [("is_done", JBool false); ("content", JStr "buy milk")]
         = Some (JStr c)
      /\ dict_get "is_done"
           [("is_done", JBool false); ("content", JStr "buy milk")]
         = Some (JBool d)
      /\ (dict_get "done" [("content", JStr "buy milk")] = None -> d = false)
      /\ make_object 99
           [("is_done", JBool false); ("content", JStr "buy milk")]
         = Return (Some (Todo.Build None c d FkUnset 99))
      /\ todo_schema_load example_boolean_value RAISE 99
           [("content", JStr "buy milk")]
         = Return (Some (Todo.Build None c d FkUnset 99)).
Proof.
  split; [reflexivity |].
  exact (@todo_schema_load_makes_todo example_boolean_value RAISE 99
           [("content", JStr "buy milk")]
           [("is_done", JBool false); ("content", JStr "buy milk")]
           eq_refl).
Defined.

(* ------------------------------------------------------------------ *)
(** ** Normalizing an address *)

Lemma lower_char_twice (c : ascii) :
  Str.lower_char (Str.lower_char c) = Str.lower_char c.
Proof. destruct c as [[] [] [] [] [] [] [] []]; reflexivity. Qed.

Lemma isspace_lower_char (c : ascii) :
  Str.isspace (Str.lower_char c) = Str.isspace c.
Proof. destruct c as [[] [] [] [] [] [] [] []]; reflexivity. Qed.

Lemma lower_twice (s : string) : Str.lower (Str.lower s) = Str.lower s.
Proof.
  induction s as [| c s IH]; cbn; [reflexivity |].
  now rewrite lower_char_twice, IH.
Qed.

Lemma lower_lstrip (s : string) :
  Str.lower (Str.lstrip s) = Str.lstrip (Str.lower s).
Proof.
  induction s as [| c s IH]; cbn; [reflexivity |].
  rewrite isspace_lower_char. now destruct (Str.isspace c).
Qed.

Lemma lower_rstrip (s : string) :
  Str.lower (Str.rstrip s) = Str.rstrip (Str.lower s).
Proof.
  induction s as [| c s IH]; cbn; [reflexivity |].
  rewrite <- IH, isspace_lower_char.
  destruct (Str.rstrip s); cbn; [now destruct (Str.isspace c) | reflexivity].
Qed.

Lemma lstrip_clean_head (s : string) : clean_head (Str.lstrip s).
Proof.
  induction s as [| c s IH]; cbn; [exact I |].
  destruct (Str.isspace c) eqn:E; [exact IH | exact E].
Qed.

Lemma rstrip_clean_head (s : string) :
  clean_head s -> clean_head (Str.rstrip s).
Proof.
  destruct s as [| c s]; cbn; [auto |].
  intros E. rewrite E. now destruct (Str.rstrip s).
Qed.

Lemma lstrip_of_clean_head (s : string) : clean_head s -> Str.lstrip s = s.
Proof. destruct s as [| c s]; cbn; [auto |]. now intros ->. Qed.

Lemma rstrip_twice (s : string) : Str.rstrip (Str.rstrip s) = Str.rstrip s.
Proof.
  induction s as [| c s IH]; cbn; [reflexivity |].
  destruct (Str.rstrip s) as [| c' r] eqn:E.
  - destruct (Str.isspace c) eqn:Ec; cbn; [reflexivity | now rewrite Ec].
  - change (Str.rstrip (String c (String c' r)))
      with (match Str.rstrip (String c' r) with
            | EmptyString =>
                if Str.isspace c then EmptyString else String c EmptyString
            | r0 => String c r0
            end).
    now rewrite IH.
Qed.

Lemma strip_twice (s : string) : Str.strip (Str.strip s) = Str.strip s.
Proof.
  unfold Str.strip.
  rewrite lstrip_of_clean_head
    by (apply rstrip_clean_head, lstrip_clean_head).
  apply rstrip_twice.
Qed.

Lemma normalize_twice (e : string) : normalize (normalize e) = normalize e.
Proof.
  unfold normalize, Str.strip.
  rewrite lower_rstrip, lower_lstrip, lower_twice.
  apply strip_twice.
Qed.

Lemma dict_set_twice (V : Type) (k : string) (v : V) (d : dict V) :
  dict_set k v (dict_set k v d) = dict_set k v d.
Proof.
  induction d as [| [k' v'] d IH]; cbn.
  - now rewrite String.eqb_refl.
  - destruct (String.eqb k k') eqn:E; cbn; rewrite ?E, ?String.eqb_refl;
      [reflexivity | now rewrite IH].
Qed.

(** X10: the [pre_load] hook of the User schema is idempotent: run on
    its own output, it returns that output unchanged. *)
Theorem process_input_idempotent (data data' : dict json) :
  process_input data = Return data' ->
  process_input data' = Return data'.
Proof.
  unfold process_input.
  destruct (dict_get "email" data) as [[| ? | ? | e | ? | ?] |];
    try discriminate.
  intros [= <-]. rewrite dict_get_set_same.
  fold (normalize e). fold (normalize (normalize e)).
  now rewrite normalize_twice, dict_set_twice.
Qed.

(* ------------------------------------------------------------------ *)
(** ** What the views leave in the database *)

Section Effects.

Variable email_pattern : string -> bool.
Variable boolean_value : json -> option bool.
Variable isoformat : datetime -> string.
Variable unknown : unknown_policy.

(** The two ways [register] ends: without a write and without a 201, or
    with the row of the new user appended. *)
Lemma register_cases (now : datetime) (req : request) (db : DB) :
  (snd (register email_pattern boolean_value isoformat unknown now req db)
   = db
   /\ forall resp,
       fst (register email_pattern boolean_value isoformat unknown now req db)
       = Return resp ->
       status_code resp <> 201)
  \/ exists e p,
      dict_get "email" (get_json req) = Some (JStr e)
      /\ dict_get "password" (get_json req) = Some (JStr p)
      /\ existsb (has_email (normalize e)) (users db) = false
      /\ register email_pattern boolean_value isoformat unknown now req db
         = (Return
              (reply
                 (JObj
                    [("user",
                      JObj [("id", JInt (User.next_id (users db)));
                            ("email", JStr (normalize e));
                            ("joined_on", JStr (isoformat now))]);
                     ("message",
                      JStr ("Successfully created user: " ++ normalize e))])
                 201),
            BuildDB (users db
                     ++ [User.Build (User.next_id (users db)) (normalize e)
                                    p now])%list
                    (todos db)).
Proof.
  unfold register.
  destruct (user_schema_load email_pattern boolean_value unknown
                             (get_json req)) as [data | ex] eqn:Hload.
  - assert (He : exists e, dict_get "email" (get_json req) = Some (JStr e)).
    { unfold user_schema_load in Hload.
      apply load_Return in Hload as (processed & data' & Hpre & _).
      unfold process_input in Hpre.
      destruct (dict_get "email" (get_json req)) as [[| ? | ? | e | ? | ?] |];
        try discriminate.
      now exists e. }
    destruct He as (e & He).
    destruct (user_schema_load_Return _ _ _ _ He Hload)
      as (p & extra & Hp & ->).
    run_view. cbn. fold (normalize e).
    destruct (find (has_email (normalize e)) (users db)) eqn:Hfind; cbn.
    + left. split; [reflexivity |]. intros resp [= <-]. discriminate.
    + unfold User.create.
      destruct (existsb (has_email (normalize e)) (users db)) eqn:Hex; cbn.
      * left. split; [now destruct db |]. discriminate.
      * right. exists e, p. repeat split; auto.
  - left. destruct ex; cbn; split; try reflexivity; try discriminate.
    intros resp [= <-]. discriminate.
Qed.

(** The two ways [new_todo] ends: with 401 or 422 and without a write,
    or with 200 and the row of the new todo appended.  It never
    raises. *)
Lemma new_todo_cases (now : datetime) (req : request) (db : DB) :
  (snd (new_todo boolean_value isoformat unknown now req db) = db
   /\ exists resp,
       fst (new_todo boolean_value isoformat unknown now req db) = Return resp
       /\ (status_code resp = 401 \/ status_code resp = 422))
  \/ exists user c d,
      authenticates db req user
      /\ dict_get "content" (get_json req) = Some (JStr c)
      /\ (dict_get "done" (get_json req) = None -> d = false)
      /\ new_todo boolean_value isoformat unknown now req db
         = (Return
              (reply
                 (JObj
                    [("todo",
                      todo_entry isoformat
                        (TodoRow.Build (TodoRow.next_id (todos db)) c d
                                       (User.id user) now)
                        user)])
                 200),
            BuildDB (users db)
                    (todos db
                     ++ [TodoRow.Build (TodoRow.next_id (todos db)) c d
                                       (User.id user) now])%list).
Proof.
  unfold new_todo, requires_auth.
  destruct (authorization req) as [[username password] |] eqn:Ha.
  2: { left. split; [reflexivity |]. eexists. split; [reflexivity |].
       now left. }
  unfold check_auth. run_view.
  destruct (find (has_email username) (users db)) as [user |] eqn:Hf; cbn.
  2: { left. split; [reflexivity |]. eexists. split; [reflexivity |].
       now left. }
  destruct (String.eqb password (User.password user)) eqn:Hp; cbn.
  2: { left. split; [reflexivity |]. eexists. split; [reflexivity |].
       now left. }
  rewrite Hf. unfold new_todo_view, todo_schema_load, load.
  destruct (deserialize boolean_value unknown TodoSchema_load_fields
                        (get_json req)) as [data [| err errs]] eqn:Hd.
  - destruct (todo_schema_deserialize_ok _ _ _ Hd)
      as (c & d & extra & Hc & -> & Hdone).
    right. exists user, c, d. split.
    { exists username, password. apply String.eqb_eq in Hp. auto. }
    split; [exact Hc |]. split; [exact Hdone |].
    cbn. unfold Todo.save. cbn. reflexivity.
  - left. cbn. split; [reflexivity |]. eexists. split; [reflexivity |].
    now right.
Qed.

Lemma get_todo_reads (pk : Z) (db : DB) :
  snd (get_todo isoformat pk db) = db.
Proof.
  unfold get_todo, todo_schema_dump. run_view.
  destruct (find (has_id pk) (todos db)); cbn; [| reflexivity].
  destruct (find _ (users db)); reflexivity.
Qed.

Lemma TodoSchema_serialize_reads (todo : Todo.t) (db : DB) :
  snd (TodoSchema_serialize isoformat todo db) = db.
Proof.
  unfold TodoSchema_serialize. run_view.
  destruct (Todo.user todo); cbn; auto.
  destruct (find _ (users db)); auto.
Qed.

Lemma TodoSchema_serialize_many_reads (l : list Todo.t) (db : DB) :
  snd (TodoSchema_serialize_many isoformat l db) = db.
Proof.
  induction l as [| todo l IH]; cbn; [reflexivity |].
  unfold bind at 1.
  pose proof (TodoSchema_serialize_reads todo db) as H1.
  destruct (TodoSchema_serialize isoformat todo db) as [[item | e] db1];
    cbn in *; subst db1; [| reflexivity].
  unfold bind.
  destruct (TodoSchema_serialize_many isoformat l db) as [[items | e] db2];
    cbn in *; subst db2; reflexivity.
Qed.

Lemma get_todos_reads (db : DB) : snd (get_todos isoformat db) = db.
Proof.
  unfold get_todos, todos_schema_dump, Todo_select_order_by_posted_on.
  unfold bind at 1. unfold bind at 1.
  pose proof (TodoSchema_serialize_many_reads
                (map Todo.of_row (order_by_posted_on (todos db))) db) as H.
  unfold bind.
  destruct (TodoSchema_serialize_many isoformat _ db) as [[items | e] db1];
    cbn in *; now subst db1.
Qed.

(** Every view leaves one of the four effects. *)
Lemma run_effect (c : call) (db : DB) :
  effect db
    (snd (run email_pattern boolean_value isoformat unknown c db)).
Proof.
  destruct c as [now req | | pk | pk | now req]; cbn [run].
  - destruct (register_cases now req db)
      as [[-> _] | (e & p & _ & _ & Hex & ->)]; [constructor |].
    cbn. apply UserAdded; [exact Hex | apply normalize_twice].
  - rewrite get_todos_reads. constructor.
  - rewrite get_todo_reads. constructor.
  - destruct (find (has_id pk) (todos db)) as [r |] eqn:Hfind.
    + rewrite (toggledone_found _ _ _ Hfind). constructor.
    + rewrite (toggledone_missing _ _ _ Hfind). constructor.
  - destruct (new_todo_cases now req db)
      as [[-> _] | (user & c & d & Hauth & _ & _ & ->)]; [constructor |].
    cbn. apply TodoAdded.
    destruct Hauth as (username & password & _ & Hf & _).
    now apply find_some in Hf as [Hin _].
Qed.

End Effects.

(* ------------------------------------------------------------------ *)
(** ** Lists, keys and the ordered selection *)

Lemma NoDup_snoc (A : Type) (l : list A) (x : A) :
  NoDup l -> ~ In x l -> NoDup (l ++ [x]).
Proof.
  induction 1 as [| y l Hy Hl IH]; cbn; intros Hx.
  - constructor; [tauto | constructor].
  - constructor.
    + rewrite in_app_iff. cbn. intros [H | [-> | []]]; tauto.
    + apply IH. tauto.
Qed.

Lemma fold_max_ge (l : list Z) (a x : Z) :
  x = a \/ In x l -> x <= fold_right Z.max a l.
Proof.
  induction l as [| y l IH]; cbn.
  - intros [-> | []]. lia.
  - intros [H | [-> | H]]; [specialize (IH (or_introl H)) | |
                             specialize (IH (or_intror H))]; lia.
Qed.

Lemma User_next_id_fresh (rows : User.table) :
  ~ In (User.next_id rows) (map User.id rows).
Proof.
  destruct rows as [| r rows]; [cbn; tauto |].
  unfold User.next_id. cbn [map In]. intros [H | H].
  - pose proof (fold_max_ge (map User.id rows) (or_introl (eq_sym H))). lia.
  - pose proof (@fold_max_ge (map User.id rows) (User.id r) _ (or_intror H)).
    lia.
Qed.

Lemma TodoRow_next_id_fresh (rows : TodoRow.table) :
  ~ In (TodoRow.next_id rows) (map TodoRow.id rows).
Proof.
  destruct rows as [| r rows]; [cbn; tauto |].
  unfold TodoRow.next_id. cbn [map In]. intros [H | H].
  - pose proof (fold_max_ge (map TodoRow.id rows) (or_introl (eq_sym H))). lia.
  - pose proof (@fold_max_ge (map TodoRow.id rows) (TodoRow.id r) _ (or_intror H)).
    lia.
Qed.

Lemma User_next_id_above (rows : User.table) (x : Z) :
  In x (map User.id rows) -> x < User.next_id rows.
Proof.
  destruct rows as [| r rows]; [intros [] |].
  unfold User.next_id. cbn [map In]. intros [H | H].
  - pose proof (fold_max_ge (map User.id rows) (or_introl (eq_sym H))). lia.
  - pose proof (@fold_max_ge (map User.id rows) (User.id r) _ (or_intror H)).
    lia.
Qed.

Lemma TodoRow_next_id_above (rows : TodoRow.table) (x : Z) :
  In x (map TodoRow.id rows) -> x < TodoRow.next_id rows.
Proof.
  destruct rows as [| r rows]; [intros [] |].
  unfold TodoRow.next_id. cbn [map In]. intros [H | H].
  - pose proof (fold_max_ge (map TodoRow.id rows) (or_introl (eq_sym H))).
    lia.
  - pose proof (@fold_max_ge (map TodoRow.id rows) (TodoRow.id r) _
                             (or_intror H)).
    lia.
Qed.

Lemma existsb_has_email (rows : User.table) (e : string) :
  existsb (has_email e) rows = false -> ~ In e (map User.email rows).
Proof.
  induction rows as [| u rows IH]; cbn; [tauto |].
  intros H. apply orb_false_elim in H as [H1 H2].
  apply String.eqb_neq in H1. intros [H | H]; [congruence | now apply IH].
Qed.

Lemma find_app_Some (A : Type) (f : A -> bool) (l l' : list A) (x : A) :
  find f l = Some x -> find f (l ++ l') = Some x.
Proof.
  induction l as [| y l IH]; cbn; [discriminate |].
  destruct (f y); auto.
Qed.

Lemma find_app_None (A : Type) (f : A -> bool) (l l' : list A) :
  find f l = None -> find f (l ++ l') = find f l'.
Proof.
  induction l as [| y l IH]; cbn; [reflexivity |].
  destruct (f y); [discriminate | auto].
Qed.

Lemma find_In_Some (A : Type) (f : A -> bool) (l : list A) (x : A) :
  In x l -> f x = true -> exists y, find f l = Some y.
Proof.
  induction l as [| z l IH]; cbn; [tauto |].
  intros [-> | Hin] Hf.
  - rewrite Hf. eauto.
  - destruct (f z); eauto.
Qed.

Lemma map_frozen_set_is_done (b : bool) (rows : TodoRow.table) :
  map frozen (map (TodoRow.set_is_done b) rows) = map frozen rows.
Proof. rewrite map_map. apply map_ext. now intros []. Qed.

Lemma map_id_set_is_done (b : bool) (rows : TodoRow.table) :
  map TodoRow.id (map (TodoRow.set_is_done b) rows) = map TodoRow.id rows.
Proof. rewrite map_map. apply map_ext. now intros []. Qed.

Lemma insert_by_posted_on_perm (r : TodoRow.t) (rows : TodoRow.table) :
  Permutation (insert_by_posted_on r rows) (r :: rows).
Proof.
  induction rows as [| r' rows IH]; cbn; [reflexivity |].
  destruct (TodoRow.posted_on r <=? TodoRow.posted_on r'); [reflexivity |].
  rewrite IH. apply perm_swap.
Qed.

Lemma insert_by_posted_on_sorted (r : TodoRow.t) (rows : TodoRow.table) :
  StronglySorted earlier rows ->
  StronglySorted earlier (insert_by_posted_on r rows).
Proof.
  induction 1 as [| r' rows Hs IH Hall]; cbn.
  - repeat constructor.
  - destruct (TodoRow.posted_on r <=? TodoRow.posted_on r') eqn:E.
    + apply Z.leb_le in E. constructor; [now constructor |].
      constructor; [exact E |].
      eapply Forall_impl; [| exact Hall]. unfold earlier. intros; lia.
    + apply Z.leb_gt in E. constructor; [exact IH |].
      eapply Permutation_Forall;
        [symmetry; apply insert_by_posted_on_perm |].
      constructor; [unfold earlier; lia | exact Hall].
Qed.

Lemma order_by_posted_on_perm (rows : TodoRow.table) :
  Permutation (order_by_posted_on rows) rows.
Proof.
  induction rows as [| r rows IH]; cbn; [reflexivity |].
  rewrite insert_by_posted_on_perm. now constructor.
Qed.

Lemma order_by_posted_on_sorted (rows : TodoRow.table) :
  StronglySorted earlier (order_by_posted_on rows).
Proof.
  induction rows as [| r rows IH]; cbn; [constructor |].
  now apply insert_by_posted_on_sorted.
Qed.

(* ------------------------------------------------------------------ *)
(** ** The gate and the views on stored and on missing data *)

(** The decorator, case by case. *)
Lemma requires_auth_cases (f : User.t -> request -> M response)
      (req : request) (db : DB) :
  requires_auth f req db
  = match authorization req with
    | None => (Return please_authenticate, db)
    | Some (username, password) =>
        match find (has_email username) (users db) with
        | None => (Return please_authenticate, db)
        | Some user =>
            if String.eqb password (User.password user)
            then f user req db
            else (Return please_authenticate, db)
        end
    end.
Proof.
  unfold requires_auth, check_auth.
  destruct (authorization req) as [[username password] |]; [| reflexivity].
  run_view.
  destruct (find (has_email username) (users db)) as [user |] eqn:Hf; cbn;
    [| reflexivity].
  destruct (String.eqb password (User.password user)); cbn;
    [now rewrite Hf | reflexivity].
Qed.

(** X1: the gate fails closed.  Without credentials, with an address no
    stored user has, or with a password that is not the stored one, the
    wrapped view is not run: the answer is the 401 challenge and the
    database is left as it was. *)
Theorem requires_auth_rejects (f : User.t -> request -> M response)
        (req : request) (db : DB) :
  (forall user, ~ authenticates db req user) ->
  requires_auth f req db = (Return please_authenticate, db)
  /\ status_code please_authenticate = 401
  /\ dict_get "WWW-Authenticate" (headers please_authenticate)
     = Some ("Basic realm=" ++ dquote ++ "Example" ++ dquote).
Proof.
  intros H. split; [| split; reflexivity].
  rewrite requires_auth_cases.
  destruct (authorization req) as [[username password] |] eqn:Ha; auto.
  destruct (find (has_email username) (users db)) as [user |] eqn:Hf; auto.
  destruct (String.eqb password (User.password user)) eqn:Hp; auto.
  destruct (H user). exists username, password.
  apply String.eqb_eq in Hp. auto.
Qed.

Section Reading.

Variable isoformat : datetime -> string.

(** X3: for a stored key whose owner is stored, [get_todo] answers 200
    with the envelope [todo] around the entry of the first row with
    that key, and leaves the database as it was. *)
Theorem get_todo_found (pk : Z) (db : DB) (r : TodoRow.t) (u : User.t) :
  find (has_id pk) (todos db) = Some r ->
  owner db r = Some u ->
  get_todo isoformat pk db
  = (Return (reply (JObj [("todo", todo_entry isoformat r u)]) 200), db).
Proof.
  intros Hr Hu. unfold get_todo, todo_schema_dump, owner in *. run_view.
  rewrite Hr. cbn. rewrite Hu. reflexivity.
Qed.

(** X4: for a stored key whose owner is stored, [toggledone] answers 200
    with the entry of the row as it was before the call, and leaves
    every row of the table with the negation of that row's flag; the
    users and the other columns are left as they were. *)
Theorem toggledone_effect (pk : Z) (db : DB) (r : TodoRow.t) (u : User.t) :
  find (has_id pk) (todos db) = Some r ->
  owner db r = Some u ->
  toggledone isoformat pk db
  = (Return (reply (JObj [("todo", todo_entry isoformat r u)]) 200),
     BuildDB (users db)
             (map (TodoRow.set_is_done (negb (TodoRow.is_done r)))
                  (todos db))).
Proof.
  intros Hr Hu. unfold toggledone, todo_schema_dump, owner in *. run_view.
  rewrite Hr. cbn. rewrite Hu. reflexivity.
Qed.

(** The dump of rows whose owners are all stored. *)
Lemma TodoSchema_serialize_many_ok (db : DB) (rows : list TodoRow.t) :
  (forall r, In r rows -> exists u, owner db r = Some u) ->
  exists items,
    TodoSchema_serialize_many isoformat (map Todo.of_row rows) db
    = (Return items, db)
    /\ Forall2 (fun r item =>
                  exists u, owner db r = Some u
                            /\ item = todo_entry isoformat r u)
               rows items.
Proof.
  induction rows as [| r rows IH]; intros H.
  - exists []. split; [reflexivity | constructor].
  - destruct (H r (or_introl eq_refl)) as [u Hu].
    destruct IH as (items & Hi & HF).
    { intros r' Hin. apply H. now right. }
    exists (todo_entry isoformat r u :: items). split.
    + cbn [map TodoSchema_serialize_many]. unfold bind at 1.
      unfold TodoSchema_serialize, owner in *. run_view.
      rewrite Hu. cbn. rewrite Hi. reflexivity.
    + constructor; [now exists u | exact HF].
Qed.

(** X2: when the owner of every todo is stored, [get_todos] answers 200
    with the envelope [todos] around one entry per row, the rows taken
    by ascending [posted_on], and leaves the database as it was. *)
Theorem get_todos_lists_in_order (db : DB) :
  owners_stored db ->
  exists rows items,
    Permutation rows (todos db)
    /\ StronglySorted earlier rows
    /\ Forall2 (fun r item =>
                  exists u, owner db r = Some u
                            /\ item = todo_entry isoformat r u)
               rows items
    /\ get_todos isoformat db
       = (Return (reply (JObj [("todos", JList items)]) 200), db).
Proof.
  intros Hown.
  destruct (@TodoSchema_serialize_many_ok db (order_by_posted_on (todos db)))
    as (items & Hi & HF).
  { intros r Hin. apply Hown.
    eapply Permutation_in; [apply order_by_posted_on_perm | exact Hin]. }
  exists (order_by_posted_on (todos db)), items.
  split; [apply order_by_posted_on_perm |].
  split; [apply order_by_posted_on_sorted |].
  split; [exact HF |].
  unfold get_todos, todos_schema_dump, Todo_select_order_by_posted_on.
  unfold bind at 1. unfold bind at 1. unfold bind at 1.
  rewrite Hi. reflexivity.
Qed.

End Reading.

(* ------------------------------------------------------------------ *)
(** ** What every request keeps *)

(** The owners stay stored under each of the four effects. *)
Lemma effect_owners_stored (db db' : DB) :
  effect db db' -> owners_stored db -> owners_stored db'.
Proof.
  unfold owners_stored, owner.
  intros [| e p t _ _ | b | c d u t Hu] H r; cbn; auto.
  - intros Hin. destruct (H r Hin) as [u Hu]. exists u.
    now apply find_app_Some.
  - intros Hin. apply in_map_iff in Hin as (r0 & <- & Hin).
    destruct r0; cbn. apply (H _ Hin).
  - rewrite in_app_iff. intros [Hin | [<- | []]]; [now apply H |].
    cbn. eapply find_In_Some; [exact Hu | apply Z.eqb_refl].
Qed.

Lemma effect_emails_normalized (db db' : DB) :
  effect db db' -> emails_normalized db -> emails_normalized db'.
Proof.
  unfold emails_normalized.
  intros [| e p t _ He | b | c d u t Hu] H v; cbn; auto.
  rewrite in_app_iff. intros [Hin | [<- | []]]; [now apply H | exact He].
Qed.

Section Keeping.

Variable email_pattern : string -> bool.
Variable boolean_value : json -> option bool.
Variable isoformat : datetime -> string.
Variable unknown : unknown_policy.

(** X6: no request makes two users share an address: if the stored
    addresses are pairwise distinct before a request, they are after
    it. *)
Theorem run_keeps_emails_unique (c : call) (db : DB) :
  emails_unique db ->
  emails_unique
    (snd (run email_pattern boolean_value isoformat unknown c db)).
Proof.
  unfold emails_unique. intros H.
  destruct (run_effect email_pattern boolean_value isoformat unknown c db)
    as [| e p t Hex _ | b | c' d u t Hu]; cbn; auto.
  rewrite map_app. cbn. apply NoDup_snoc; [exact H |].
  now apply existsb_has_email.
Qed.

(** X7: keys stay distinct, and new keys are larger: on a database whose
    keys are pairwise distinct and below SQLite's largest rowid, after
    any request the keys of users and of todos are still pairwise
    distinct, and every key that was not in its table before is larger
    than every key that was. *)
Theorem run_keeps_ids_unique (c : call) (db : DB) :
  rowids_below_max db ->
  ids_unique db ->
  ids_unique (snd (run email_pattern boolean_value isoformat unknown c db))
  /\ (forall u u0,
        In u (users (snd (run email_pattern boolean_value isoformat unknown
                              c db))) ->
        ~ In (User.id u) (map User.id (users db)) ->
        In u0 (users db) ->
        User.id u0 < User.id u)
  /\ (forall r r0,
        In r (todos (snd (run email_pattern boolean_value isoformat unknown
                              c db))) ->
        ~ In (TodoRow.id r) (map TodoRow.id (todos db)) ->
        In r0 (todos db) ->
        TodoRow.id r0 < TodoRow.id r).
Proof.
  unfold ids_unique. intros _ [Hu Ht].
  destruct (run_effect email_pattern boolean_value isoformat unknown c db)
    as [| e p t _ _ | b | c' d u' t _]; cbn [users todos].
  - split; [auto |]. split.
    + intros u u0 Hin Hnew. destruct Hnew. now apply in_map.
    + intros r r0 Hin Hnew. destruct Hnew. now apply in_map.
  - split; [| split].
    + split; [| exact Ht]. rewrite map_app. cbn.
      apply NoDup_snoc; [exact Hu | apply User_next_id_fresh].
    + intros u u0 Hin Hnew Hold. apply in_app_iff in Hin as [Hin | Hin].
      * destruct Hnew. now apply in_map.
      * destruct Hin as [<- | []]. cbn.
        apply User_next_id_above. now apply in_map.
    + intros r r0 Hin Hnew. destruct Hnew. now apply in_map.
  - split; [| split].
    + split; [exact Hu |]. now rewrite map_id_set_is_done.
    + intros u u0 Hin Hnew. destruct Hnew. now apply in_map.
    + intros r r0 Hin Hnew. destruct Hnew.
      rewrite <- (map_id_set_is_done b). now apply in_map.
  - split; [| split].
    + split; [exact Hu |]. rewrite map_app. cbn.
      apply NoDup_snoc; [exact Ht | apply TodoRow_next_id_fresh].
    + intros u u0 Hin Hnew. destruct Hnew. now apply in_map.
    + intros r r0 Hin Hnew Hold. apply in_app_iff in Hin as [Hin | Hin].
      * destruct Hnew. now apply in_map.
      * destruct Hin as [<- | []]. cbn.
        apply TodoRow_next_id_above. now apply in_map.
Qed.

(** X8: no request orphans a todo: if the owner of every todo is stored
    before a request, it is after it. *)
Theorem run_keeps_owners_stored (c : call) (db : DB) :
  owners_stored db ->
  owners_stored
    (snd (run email_pattern boolean_value isoformat unknown c db)).
Proof.
  intros H. apply (effect_owners_stored (db := db)); [| exact H].
  apply run_effect.
Qed.

(** X11: no request stores an address that [process_input] would still
    change: if every stored address is lower-cased and stripped before a
    request, every one is after it. *)
Theorem run_keeps_emails_normalized (c : call) (db : DB) :
  emails_normalized db ->
  emails_normalized
    (snd (run email_pattern boolean_value isoformat unknown c db)).
Proof.
  intros H. apply (effect_emails_normalized (db := db)); [| exact H].
  apply run_effect.
Qed.

(** X9: no request deletes or rewrites: after any request the users of
    before are still there, unchanged and in place, and so are the
    todos of before in every column but [is_done]. *)
Theorem run_extends (c : call) (db : DB) :
  extends db (snd (run email_pattern boolean_value isoformat unknown c db)).
Proof.
  unfold extends.
  destruct (run_effect email_pattern boolean_value isoformat unknown c db)
    as [| e p t _ _ | b | c' d u t _]; cbn.
  - split; exists []; now rewrite app_nil_r.
  - split; [eexists; reflexivity | exists []; now rewrite app_nil_r].
  - split; [exists []; now rewrite app_nil_r |].
    exists []. now rewrite map_frozen_set_is_done, app_nil_r.
  - split; [exists []; now rewrite app_nil_r |].
    rewrite map_app. eexists; reflexivity.
Qed.

(** X15: only the success answers write: [register] leaves the database
    as it was unless it answers 201, and [new_todo] unless it answers
    200. *)
Theorem only_success_writes (now : datetime) (req : request) (db : DB) :
  (snd (register email_pattern boolean_value isoformat unknown now req db)
   = db
   \/ exists resp,
       fst (register email_pattern boolean_value isoformat unknown now req db)
       = Return resp
       /\ status_code resp = 201)
  /\ (snd (new_todo boolean_value isoformat unknown now req db) = db
      \/ exists resp,
          fst (new_todo boolean_value isoformat unknown now req db)
          = Return resp
          /\ status_code resp = 200).
Proof.
  split.
  - destruct (register_cases email_pattern boolean_value isoformat unknown
                             now req db)
      as [[H _] | (e & p & _ & _ & _ & H)]; [now left | right].
    rewrite H. eexists. split; reflexivity.
  - destruct (new_todo_cases boolean_value isoformat unknown now req db)
      as [[H _] | (user & c & d & _ & _ & _ & H)]; [now left | right].
    rewrite H. eexists. split; reflexivity.
Qed.


End Keeping.

(* ------------------------------------------------------------------ *)
(** ** Registration, credentials and creation *)

Lemma existsb_find_None (A : Type) (f : A -> bool) (l : list A) :
  existsb f l = false -> find f l = None.
Proof.
  induction l as [| x l IH]; cbn; [reflexivity |].
  destruct (f x); [discriminate | exact IH].
Qed.

Section Registering.

Variable email_pattern : string -> bool.
Variable boolean_value : json -> option bool.
Variable isoformat : datetime -> string.
Variable unknown : unknown_policy.

(** X12: the credentials that open the gate after a registration are
    the normalized address and the password as sent: when [register]
    answers 201, a request with that pair authenticates as the new
    user, whatever address spelling was registered. *)
Theorem register_then_authenticates (now : datetime) (req : request)
        (db : DB) (resp : response) :
  fst (register email_pattern boolean_value isoformat unknown now req db)
  = Return resp ->
  status_code resp = 201 ->
  exists e p,
    dict_get "email" (get_json req) = Some (JStr e)
    /\ dict_get "password" (get_json req) = Some (JStr p)
    /\ forall payload,
        authenticates
          (snd (register email_pattern boolean_value isoformat unknown
                         now req db))
          (BuildRequest (Some (normalize e, p)) payload)
          (User.Build (User.next_id (users db)) (normalize e) p now).
Proof.
  intros Hresp Hstatus.
  destruct (register_cases email_pattern boolean_value isoformat unknown
                           now req db)
    as [[_ H] | (e & p & He & Hp & Hex & H)].
  - now destruct (H resp Hresp).
  - exists e, p. split; [exact He |]. split; [exact Hp |].
    intros payload. rewrite H.
    exists (normalize e), p. split; [reflexivity |]. split; [| reflexivity].
    cbn [snd users]. rewrite find_app_None by now apply existsb_find_None.
    cbn. now rewrite String.eqb_refl.
Qed.

(** X13: on a database whose addresses are all normalized, the gate
    turns away every username that is not itself lower-cased and
    stripped, whatever the password: the lookup compares the username
    as sent. *)
Theorem requires_auth_rejects_raw_address
        (f : User.t -> request -> M response) (req : request) (db : DB)
        (username password : string) :
  emails_normalized db ->
  authorization req = Some (username, password) ->
  normalize username <> username ->
  requires_auth f req db = (Return please_authenticate, db).
Proof.
  intros Hnorm Ha Hraw. rewrite requires_auth_cases, Ha.
  destruct (@find_email_none (users db) username) as [-> _]; [| reflexivity].
  intros u Hin He. apply Hraw. rewrite <- He. now apply Hnorm.
Qed.

(** X14: a password shorter than 6 or longer than 36 characters is
    answered with 422 and a message under the key [password]; nothing
    is written. *)
Theorem register_password_bounds (now : datetime) (req : request) (db : DB)
        (e p : string) :
  dict_get "email" (get_json req) = Some (JStr e) ->
  dict_get "password" (get_json req) = Some (JStr p) ->
  Str.len p < 6 \/ 36 < Str.len p ->
  exists messages,
    register email_pattern boolean_value isoformat unknown now req db
    = (Return (reply (JObj [("errors", messages)]) 422), db)
    /\ item "password" messages
       = Some (JList [JStr "Length must be between 6 and 36."]).
Proof.
  intros He Hp Hlen.
  set (processed := dict_set "email" (JStr (normalize e)) (get_json req)).
  assert (Hpre : process_input (get_json req) = Return processed)
    by (unfold process_input; now rewrite He).
  assert (He' : dict_get "email" processed = Some (JStr (normalize e)))
    by apply dict_get_set_same.
  assert (Hp' : dict_get "password" processed = Some (JStr p))
    by (unfold processed; rewrite dict_get_set_other by discriminate;
        exact Hp).
  assert (Hbad : (6 <=? Str.len p) && (Str.len p <=? 36) = false).
  { apply andb_false_iff. destruct Hlen; [left | right]; apply Z.leb_gt; lia. }
  destruct (deserialize boolean_value unknown
              (UserSchema_load_fields email_pattern) processed)
    as [data errors] eqn:Hd.
  assert (Herr : dict_get "password" errors
                 = Some ["Length must be between 6 and 36."]).
  { revert Hd. unfold deserialize.
    destruct (load_unknown unknown (UserSchema_load_fields email_pattern)
                           processed) as [extra errors'].
    cbn [load_fields UserSchema_load_fields]. unfold load_field.
    cbn [data_key attribute ftype required missing validate
         deserialize_value flat_map app Email Length].
    rewrite He', Hp'.
    cbn [data_key attribute ftype required missing validate
         deserialize_value flat_map app Email Length].
    rewrite Hbad.
    destruct (email_pattern (normalize e)); cbn; intros [= <- <-];
      reflexivity. }
  exists (messages_json errors). split.
  - unfold register, user_schema_load.
    rewrite (@load_Raise boolean_value unknown _ _ _ _ _ _ data errors
                         Hpre Hd).
    + reflexivity.
    + intros ->. discriminate.
  - now apply item_messages_json in Herr.
Qed.

(** X5: the wire field [done] fills the column [is_done]: with the
    credentials of a stored user and a payload of a [content] string
    and a [done] the Boolean field reads as [d], the new row has
    [is_done = d] and the answer shows [done = d]. *)
Theorem new_todo_maps_done (now : datetime) (req : request) (db : DB)
        (user : User.t) (c : string) (v : json) (d : bool) :
  authenticates db req user ->
  dict_get "content" (get_json req) = Some (JStr c) ->
  dict_get "done" (get_json req) = Some v ->
  v <> JNull ->
  boolean_value v = Some d ->
  (forall k x, In (k, x) (get_json req) -> k = "content" \/ k = "done") ->
  new_todo boolean_value isoformat unknown now req db
  = (Return
       (reply
          (JObj
             [("todo",
               todo_entry isoformat
                 (TodoRow.Build (TodoRow.next_id (todos db)) c d
                                (User.id user) now)
                 user)])
          200),
     BuildDB (users db)
             (todos db
              ++ [TodoRow.Build (TodoRow.next_id (todos db)) c d
                                (User.id user) now])%list).
Proof.
  intros Hauth Hc Hdone Hnull Hb Hkeys. unfold new_todo.
  rewrite (requires_auth_passes _ Hauth).
  assert (Hextra :
            filter (fun kv : string * json =>
                      negb (mem (fst kv)
                                (map data_key TodoSchema_load_fields)))
                   (get_json req) = []).
  { clear Hc Hdone Hauth. induction (get_json req) as [| [k x] l IH]; auto.
    cbn [filter].
    destruct (Hkeys k x (or_introl eq_refl)) as [-> | ->]; cbn;
      apply IH; intros k' x' Hin; apply (Hkeys k' x'); now right. }
  unfold new_todo_view, todo_schema_load, load, deserialize, load_unknown.
  rewrite Hextra.
  cbn [load_fields TodoSchema_load_fields]. unfold load_field.
  cbn [data_key attribute ftype required missing validate
       deserialize_value flat_map app].
  rewrite Hc, Hdone.
  destruct v; try congruence; rewrite Hb; cbn;
    destruct unknown; cbn; run_view; unfold Todo.save; cbn; reflexivity.
Qed.

(** The owners of a reachable database are stored. *)
Lemma reachable_owners_stored (db : DB) :
  reachable email_pattern boolean_value isoformat unknown db ->
  owners_stored db.
Proof.
  induction 1 as [| c db _ IH].
  - intros r [].
  - eapply effect_owners_stored; [apply run_effect | exact IH].
Qed.

(** X16: on a database that the application built from empty tables,
    the views that dump stored todos do not fail on a missing owner:
    [get_todos] answers 200 with one entry per row and, for every key
    that fits SQLite's 64-bit integers, [toggledone] answers 200 or 404
    and [get_todo] answers 200 or raises [Todo.DoesNotExist] for a key
    that is not stored. *)
Theorem reachable_dumps_find_owners (db : DB) :
  reachable email_pattern boolean_value isoformat unknown db ->
  (exists items,
      get_todos isoformat db
      = (Return (reply (JObj [("todos", JList items)]) 200), db)
      /\ List.length items = List.length (todos db))
  /\ (forall pk,
         int64 pk ->
         exists resp,
           fst (toggledone isoformat pk db) = Return resp
           /\ (status_code resp = 200 \/ status_code resp = 404))
  /\ (forall pk,
         int64 pk ->
         (exists resp, get_todo isoformat pk db = (Return resp, db)
                       /\ status_code resp = 200)
         \/ get_todo isoformat pk db = (Raise (DoesNotExist TodoModel), db)).
Proof.
  intros Hreach. pose proof (reachable_owners_stored Hreach) as Hown.
  split; [| split].
  - destruct (@TodoSchema_serialize_many_ok isoformat db
                (order_by_posted_on (todos db))) as (items & Hi & HF).
    { intros r Hin. apply Hown.
      eapply Permutation_in; [apply order_by_posted_on_perm | exact Hin]. }
    exists items. split.
    + unfold get_todos, todos_schema_dump, Todo_select_order_by_posted_on.
      unfold bind at 1. unfold bind at 1. unfold bind at 1.
      rewrite Hi. reflexivity.
    + rewrite <- (Forall2_length HF).
      apply Permutation_length, order_by_posted_on_perm.
  - intros pk _.
    destruct (find (has_id pk) (todos db)) as [r |] eqn:Hfind.
    + destruct (Hown r) as [u Hu]; [now apply find_some in Hfind |].
      rewrite (toggledone_response isoformat _ _ Hfind Hu).
      eexists. split; [reflexivity | now left].
    + rewrite (toggledone_missing isoformat _ _ Hfind).
      eexists. split; [reflexivity | now right].
  - intros pk _.
    destruct (find (has_id pk) (todos db)) as [r |] eqn:Hfind.
    + destruct (Hown r) as [u Hu]; [now apply find_some in Hfind |].
      left. unfold get_todo, todo_schema_dump, owner in *. run_view.
      rewrite Hfind. cbn. rewrite Hu. eexists. split; reflexivity.
    + right. now apply get_todo_missing.
Qed.

End Registering.

(* ------------------------------------------------------------------ *)
(** ** The further theorems at concrete requests *)

Lemma requires_auth_rejects_witness :
  (forall user,
      ~ authenticates example_db
          (BuildRequest (Some ("a@b.com", "wrong")) []) user)
  /\ requires_auth (new_todo_view example_boolean_value example_isoformat
                                  RAISE 99)
                   (BuildRequest (Some ("a@b.com", "wrong")) []) example_db
     = (Return please_authenticate, example_db)
  /\ status_code please_authenticate = 401
  /\ dict_get "WWW-Authenticate" (headers please_authenticate)
     = Some ("Basic realm=" ++ dquote ++ "Example" ++ dquote).
Proof.
  assert (H : forall user,
             ~ authenticates example_db
                 (BuildRequest (Some ("a@b.com", "wrong")) []) user).
  { intros user (username & password & Ha & Hf & Hp).
    cbn in Ha. injection Ha as <- <-. cbn in Hf. injection Hf as <-.
    discriminate Hp. }
  split; [exact H |].
  apply requires_auth_rejects. exact H.
Defined.

Lemma get_todos_lists_in_order_witness :
  owners_stored example_db
  /\ exists rows items,
      Permutation rows (todos example_db)
      /\ StronglySorted earlier rows
      /\ Forall2 (fun r item =>
                    exists u, owner example_db r = Some u
                              /\ item = todo_entry example_isoformat r u)
                 rows items
      /\ get_todos example_isoformat example_db
         = (Return (reply (JObj [("todos", JList items)]) 200), example_db).
Proof.
  assert (H : owners_stored example_db)
    by (intros r [<- | [<- | []]]; exists alice; reflexivity).
  split; [exact H |].
  apply get_todos_lists_in_order. exact H.
Defined.

Lemma get_todo_found_witness :
  find (has_id 2) (todos example_db)
  = Some (TodoRow.Build 2 "walk the dog" false 1 30)
  /\ owner example_db (TodoRow.Build 2 "walk the dog" false 1 30) = Some alice
  /\ get_todo example_isoformat 2 example_db
     = (Return
          (reply
             (JObj [("todo",
                     todo_entry example_isoformat
                       (TodoRow.Build 2 "walk the dog" false 1 30) alice)])
             200),
        example_db).
Proof.
  split; [reflexivity |]. split; [reflexivity |].
  apply get_todo_found; reflexivity.
Defined.

Lemma toggledone_effect_witness :
  find (has_id 1) (todos example_db)
  = Some (TodoRow.Build 1 "buy milk" false 1 20)
  /\ owner example_db (TodoRow.Build 1 "buy milk" false 1 20) = Some alice
  /\ toggledone example_isoformat 1 example_db
     = (Return
          (reply
             (JObj [("todo",
                     todo_entry example_isoformat
                       (TodoRow.Build 1 "buy milk" false 1 20) alice)])
             200),
        BuildDB (users example_db)
                (map (TodoRow.set_is_done
                        (negb (TodoRow.is_done
                                 (TodoRow.Build 1 "buy milk" false 1 20))))
                     (todos example_db))).
Proof.
  split; [reflexivity |]. split; [reflexivity |].
  apply toggledone_effect; reflexivity.
Defined.

Lemma new_todo_maps_done_witness :
  authenticates example_db
    (as_alice [("content", JStr "pay rent"); ("done", JBool true)]) alice
  /\ dict_get "content"
       (get_json (as_alice [("content", JStr "pay rent");
                            ("done", JBool true)]))
     = Some (JStr "pay rent")
  /\ dict_get "done"
       (get_json (as_alice [("content", JStr "pay rent");
                            ("done", JBool true)]))
     = Some (JBool true)
  /\ JBool true <> JNull
  /\ example_boolean_value (JBool true) = Some true
  /\ (forall k x,
        In (k, x) (get_json (as_alice [("content", JStr "pay rent");
                                       ("done", JBool true)])) ->
        k = "content" \/ k = "done")
  /\ new_todo example_boolean_value example_isoformat RAISE 99
              (as_alice [("content", JStr "pay rent"); ("done", JBool true)])
              example_db
     = (Return
          (reply
             (JObj
                [("todo",
                  todo_entry example_isoformat
                    (TodoRow.Build (TodoRow.next_id (todos example_db))
                                   "pay rent" true (User.id alice) 99)
                    alice)])
             200),
        BuildDB (users example_db)
                (todos example_db
                 ++ [TodoRow.Build (TodoRow.next_id (todos example_db))
                                   "pay rent" true (User.id alice) 99])%list).
Proof.
  assert (H1 : authenticates example_db
                 (as_alice [("content", JStr "pay rent");
                            ("done", JBool true)]) alice)
    by (exists "a@b.com", "secret1"; repeat split; reflexivity).
  assert (H6 : forall k x,
             In (k, x) (get_json (as_alice [("content", JStr "pay rent");
                                            ("done", JBool true)])) ->
             k = "content" \/ k = "done").
  { intros k x [[= <- _] | [[= <- _] | []]]; [now left | now right]. }
  split; [exact H1 |]. split; [reflexivity |]. split; [reflexivity |].
  split; [discriminate |]. split; [reflexivity |]. split; [exact H6 |].
  apply new_todo_maps_done with (v := JBool true);
    [exact H1 | reflexivity | reflexivity | discriminate | reflexivity
    | exact H6].
Defined.

Lemma run_keeps_emails_unique_witness :
  emails_unique example_db
  /\ emails_unique (snd (example_run (Register 40 carol_request) example_db)).
Proof.
  assert (H : emails_unique example_db)
    by (constructor; [intros [] | constructor]).
  split; [exact H |].
  apply run_keeps_emails_unique. exact H.
Defined.

Lemma run_keeps_ids_unique_witness :
  rowids_below_max example_db
  /\ ids_unique example_db
  /\ ids_unique
       (snd (example_run
               (NewTodo 99 (as_alice [("content", JStr "pay rent")]))
               example_db))
  /\ (forall u u0,
        In u (users (snd (example_run
                            (NewTodo 99
                               (as_alice [("content", JStr "pay rent")]))
                            example_db))) ->
        ~ In (User.id u) (map User.id (users example_db)) ->
        In u0 (users example_db) ->
        User.id u0 < User.id u)
  /\ (forall r r0,
        In r (todos (snd (example_run
                            (NewTodo 99
                               (as_alice [("content", JStr "pay rent")]))
                            example_db))) ->
        ~ In (TodoRow.id r) (map TodoRow.id (todos example_db)) ->
        In r0 (todos example_db) ->
        TodoRow.id r0 < TodoRow.id r).
Proof.
  assert (H0 : rowids_below_max example_db).
  { split.
    - intros u [<- | []]. reflexivity.
    - intros r [<- | [<- | []]]; reflexivity. }
  assert (H : ids_unique example_db).
  { split; repeat constructor; cbn; intuition discriminate. }
  split; [exact H0 |]. split; [exact H |].
  exact (@run_keeps_ids_unique example_email_pattern example_boolean_value
           example_isoformat RAISE
           (NewTodo 99 (as_alice [("content", JStr "pay rent")]))
           example_db H0 H).
Defined.

Lemma run_keeps_owners_stored_witness :
  owners_stored example_db
  /\ owners_stored
       (snd (example_run
               (NewTodo 99 (as_alice [("content", JStr "pay rent")]))
               example_db)).
Proof.
  assert (H : owners_stored example_db)
    by (intros r [<- | [<- | []]]; exists alice; reflexivity).
  split; [exact H |].
  apply run_keeps_owners_stored. exact H.
Defined.

Lemma run_keeps_emails_normalized_witness :
  emails_normalized example_db
  /\ emails_normalized
       (snd (example_run (Register 40 carol_request) example_db)).
Proof.
  assert (H : emails_normalized example_db)
    by (intros u [<- | []]; reflexivity).
  split; [exact H |].
  apply run_keeps_emails_normalized. exact H.
Defined.

Lemma process_input_idempotent_witness :
  process_input [("email", JStr " A@B.com "); ("password", JStr "secret1")]
  = Return [("email", JStr "a@b.com"); ("password", JStr "secret1")]
  /\ process_input [("email", JStr "a@b.com"); ("password", JStr "secret1")]
     = Return [("email", JStr "a@b.com"); ("password", JStr "secret1")].
Proof.
  split; [reflexivity |].
  apply process_input_idempotent
    with (data := [("email", JStr " A@B.com "); ("password", JStr "secret1")]).
  reflexivity.
Defined.

Lemma register_then_authenticates_witness :
  fst (register example_email_pattern example_boolean_value
                example_isoformat RAISE 40 carol_request example_db)
  = Return
      (reply
         (JObj
            [("user", JObj [("id", JInt 2);
                            ("email", JStr "carol@example.org");
                            ("joined_on", JStr "40")]);
             ("message",
              JStr "Successfully created user: carol@example.org")])
         201)
  /\ exists e p,
      dict_get "email" (get_json carol_request) = Some (JStr e)
      /\ dict_get "password" (get_json carol_request) = Some (JStr p)
      /\ forall payload,
          authenticates
            (snd (register example_email_pattern example_boolean_value
                           example_isoformat RAISE 40 carol_request
                           example_db))
            (BuildRequest (Some (normalize e, p)) payload)
            (User.Build (User.next_id (users example_db)) (normalize e) p 40).
Proof.
  split; [reflexivity |].
  eapply register_then_authenticates; reflexivity.
Defined.

Lemma requires_auth_rejects_raw_address_witness :
  emails_normalized example_db
  /\ authorization (BuildRequest (Some ("A@B.com", "secret1")) [])
     = Some ("A@B.com", "secret1")
  /\ normalize "A@B.com" <> "A@B.com"
  /\ requires_auth (new_todo_view example_boolean_value example_isoformat
                                  RAISE 99)
                   (BuildRequest (Some ("A@B.com", "secret1")) [])
                   example_db
     = (Return please_authenticate, example_db).
Proof.
  assert (H : emails_normalized example_db)
    by (intros u [<- | []]; reflexivity).
  split; [exact H |]. split; [reflexivity |]. split; [discriminate |].
  eapply requires_auth_rejects_raw_address;
    [exact H | reflexivity | discriminate].
Defined.

Lemma register_password_bounds_witness :
  dict_get "email"
    (get_json (no_credentials [("email", JStr "c@d.com");
                               ("password", JStr "short")]))
  = Some (JStr "c@d.com")
  /\ dict_get "password"
       (get_json (no_credentials [("email", JStr "c@d.com");
                                  ("password", JStr "short")]))
     = Some (JStr "short")
  /\ (Str.len "short" < 6 \/ 36 < Str.len "short")
  /\ exists messages,
      register example_email_pattern example_boolean_value
               example_isoformat RAISE 40
               (no_credentials [("email", JStr "c@d.com");
                                ("password", JStr "short")])
               example_db
      = (Return (reply (JObj [("errors", messages)]) 422), example_db)
      /\ item "password" messages
         = Some (JList [JStr "Length must be between 6 and 36."]).
Proof.
  split; [reflexivity |]. split; [reflexivity |].
  split; [left; reflexivity |].
  eapply register_password_bounds;
    [reflexivity | reflexivity | left; reflexivity].
Defined.

Example carol_db_rows :
  carol_db
  = BuildDB [User.Build 1 "carol@example.org" "secret3" 40]
            [TodoRow.Build 1 "water the plants" false 1 99].
Proof. reflexivity. Qed.

Lemma reachable_dumps_find_owners_witness :
  reachable example_email_pattern example_boolean_value example_isoformat
            RAISE carol_db
  /\ (exists items,
         get_todos example_isoformat carol_db
         = (Return (reply (JObj [("todos", JList items)]) 200), carol_db)
         /\ List.length items = List.length (todos carol_db))
  /\ (forall pk,
         int64 pk ->
         exists resp,
           fst (toggledone example_isoformat pk carol_db) = Return resp
           /\ (status_code resp = 200 \/ status_code resp = 404))
  /\ (forall pk,
         int64 pk ->
         (exists resp,
             get_todo example_isoformat pk carol_db = (Return resp, carol_db)
             /\ status_code resp = 200)
         \/ get_todo example_isoformat pk carol_db
            = (Raise (DoesNotExist TodoModel), carol_db)).
Proof.
  assert (H : reachable example_email_pattern example_boolean_value
                example_isoformat RAISE carol_db)
    by (apply reachable_run, reachable_run, reachable_empty).
  split; [exact H |].
  apply (@reachable_dumps_find_owners example_email_pattern
           example_boolean_value example_isoformat RAISE _ H).
Defined.
